(** * The agent gateway: task route, batch coordinator and the three agents

    A shallow embedding of the backend of the repository:
    - [backend/src/agents/index.ts]         the [agents] table,
    - [backend/src/agents/*Agent.ts]        the three [handleTask] bodies,
    - [backend/src/routes/agent.ts]         POST /api/agent/task,
    - [backend/src/mcp/mcpServer.ts]        POST /api/mcp/coordinate
      (function [setupMCPServer]).

    Request bodies are JSON documents parsed by [express.json()], so the
    program manipulates plain JavaScript values; exceptions are explicit
    completions, and the handlers run in a small state-and-exception monad
    whose state carries the outside world (the network reached by axios)
    and a journal of the handler invocations. *)

From Stdlib Require Import String Ascii List ZArith Bool Lia DecimalString.
Import ListNotations.
Local Open Scope string_scope.

(* ------------------------------------------------------------------ *)
(** * JavaScript values and the primitive operations the code uses     *)
(* ------------------------------------------------------------------ *)

(** The values a parsed JSON body is made of, plus [undefined] (the value of
    an absent field).  Numbers are the integer-valued ones: the program only
    tests a number for truthiness and turns it into a string. *)
#[warnings="-register-all"]
Inductive value : Type :=
| VUndefined
| VNull
| VBool (b : bool)
| VNum (n : Z)
| VStr (s : string)
| VArr (elems : list value)
| VObj (props : list (string * value)).

(** What a [throw] carries.  The routes never inspect it. *)
Inductive exn : Type :=
| TypeError
| URIError
| AxiosError
| JsonWebTokenError.

(** Completion of an expression: a value, or an abrupt [throw]. *)
Inductive completion (A : Type) : Type :=
| Normal (a : A)
| Throw (e : exn).
Arguments Normal {A} a.
Arguments Throw {A} e.

(** JavaScript truthiness, as tested by [!x]. *)
Definition truthy (v : value) : bool :=
  match v with
  | VUndefined | VNull => false
  | VBool b => b
  | VNum n => negb (n =? 0)%Z
  | VStr s => negb (s =? "")
  | VArr _ | VObj _ => true
  end.

(** Own property of a parsed object (the list holds the object as parsed:
    one binding per key). *)
Fixpoint ownProperty (props : list (string * value)) (p : string)
  : option value :=
  match props with
  | [] => None
  | (k, v) :: rest => if k =? p then Some v else ownProperty rest p
  end.

(** [v.p] (and the destructuring [const { p } = v]) for the property names
    the program reads: taskType, payload, tasks, id, action, data, goal,
    query, extract.  None of them lives on a built-in prototype, so reading
    one through a primitive or an array gives [undefined]; reading through
    [undefined] or [null] throws. *)
Definition getProp (v : value) (p : string) : completion value :=
  match v with
  | VUndefined | VNull => Throw TypeError
  | VObj props =>
      Normal (match ownProperty props p with Some x => x | None => VUndefined end)
  | _ => Normal VUndefined
  end.

(** [ToString], used by property keys ([agents[k]]), template literals and
    [encodeURIComponent].  An array joins its elements with commas
    ([null] prints as the empty string there); a parsed object prints as
    [[object Object]] unless it carries an own [toString] field, which is
    never callable and makes the conversion throw. *)
Fixpoint toString (v : value) : completion string :=
  match v with
  | VUndefined => Normal "undefined"
  | VNull => Normal "null"
  | VBool true => Normal "true"
  | VBool false => Normal "false"
  | VNum n => Normal (NilZero.string_of_int (Z.to_int n))
  | VStr s => Normal s
  | VArr elems =>
      (fix join (l : list value) : completion string :=
         match l with
         | [] => Normal ""
         | x :: rest =>
             match (match x with
                    | VUndefined | VNull => Normal ""
                    | _ => toString x
                    end) with
             | Throw e => Throw e
             | Normal sx =>
                 match rest with
                 | [] => Normal sx
                 | _ :: _ =>
                     match join rest with
                     | Throw e => Throw e
                     | Normal sr => Normal (sx ++ "," ++ sr)
                     end
                 end
             end
         end) elems
  | VObj props =>
      match ownProperty props "toString" with
      | Some _ => Throw TypeError
      | None => Normal "[object Object]"
      end
  end.

(** [s.split(' ')]. *)
Fixpoint split (s : string) : list string :=
  match s with
  | EmptyString => [""]
  | String c rest =>
      if Ascii.eqb c " "%char then "" :: split rest
      else match split rest with
           | h :: t => String c h :: t
           | [] => [String c ""]
           end
  end.

(* ------------------------------------------------------------------ *)
(** * The agents table ([agents/index.ts])                             *)
(* ------------------------------------------------------------------ *)

Inductive Agent : Type := researchAgent | plannerAgent | executionAgent.

(** The object literal [{ research, planner, execution }]. *)
Definition agents : list (string * Agent) :=
  [("research", researchAgent);
   ("planner", plannerAgent);
   ("execution", executionAgent)].

(** [agents] is an ordinary object, so [agents[k]] also finds what
    [Object.prototype] defines. *)
Definition Object_prototype : list string :=
  ["constructor"; "__defineGetter__"; "__defineSetter__"; "hasOwnProperty";
   "__lookupGetter__"; "__lookupSetter__"; "isPrototypeOf";
   "propertyIsEnumerable"; "toString"; "valueOf"; "__proto__";
   "toLocaleString"].

(** What [agents[k]] evaluates to. *)
Inductive member : Type :=
| Registered (a : Agent)     (* one of the three agent objects *)
| Inherited (name : string)  (* a member of Object.prototype *)
| NotFound.                  (* undefined *)

Fixpoint ownAgent (tbl : list (string * Agent)) (k : string) : option Agent :=
  match tbl with
  | [] => None
  | (n, a) :: rest => if n =? k then Some a else ownAgent rest k
  end.

Definition agents_get (k : string) : member :=
  match ownAgent agents k with
  | Some a => Registered a
  | None => if existsb (String.eqb k) Object_prototype then Inherited k
            else NotFound
  end.

(** [agents[v]]: the key is [ToString v]. *)
Definition agents_index (v : value) : completion member :=
  match toString v with
  | Throw e => Throw e
  | Normal k => Normal (agents_get k)
  end.

(** Truthiness of [agents[k]]: an agent object is truthy, and so is an
    inherited member (a function, or the prototype object itself). *)
Definition member_truthy (m : member) : bool :=
  match m with
  | Registered _ | Inherited _ => true
  | NotFound => false
  end.

(* ------------------------------------------------------------------ *)
(** * Effects: the world, the journal of invocations, exceptions       *)
(* ------------------------------------------------------------------ *)

(** One entry per call of some agent's [handleTask]: which agent, and the
    task object it received. *)
Definition call : Type := (Agent * value)%type.

Record state (W : Type) : Type := mkState {
  world : W;            (* whatever axios talks to *)
  calls : list call     (* handler invocations so far, oldest first *)
}.
Arguments mkState {W} world calls.
Arguments world {W} s.
Arguments calls {W} s.

(** State-and-exception monad: a [throw] keeps the state reached. *)
Definition M (W A : Type) : Type := state W -> completion A * state W.

Definition ret {W A} (a : A) : M W A := fun s => (Normal a, s).

Definition throw {W A} (e : exn) : M W A := fun s => (Throw e, s).

Definition bind {W A B} (m : M W A) (k : A -> M W B) : M W B :=
  fun s => match m s with
           | (Normal a, s') => k a s'
           | (Throw e, s') => (Throw e, s')
           end.

(** A pure expression that may throw. *)
Definition lift {W A} (c : completion A) : M W A := fun s => (c, s).

Declare Scope js_scope.
Delimit Scope js_scope with js.
Notation "x <- m ;; k" := (bind m (fun x => k))
  (at level 61, m at next level, right associativity) : js_scope.
Local Open Scope js_scope.

(** What a route leaves behind: a response sent with [res.status(c).json(b)]
    ([res.json(b)] sends status 200), or a rejected promise nobody catches,
    in which case no response is sent. *)
Record response : Type := mkResponse { status : nat; json : value }.

Inductive reply : Type :=
| Sent (r : response)
| Unhandled (e : exn).

Record request : Type := mkRequest {
  authorization : option string;   (* req.headers.authorization *)
  body : value                     (* req.body *)
}.

Definition error_body (msg : string) : value := VObj [("error", VStr msg)].

(* ------------------------------------------------------------------ *)
(** * A concrete environment and sample requests                       *)
(* ------------------------------------------------------------------ *)

Module Stub.

(** The world is the list of URLs fetched so far. *)
Definition W : Type := list string.

(** What the token [good] decodes to. *)
Definition alice : value := VObj [("id", VStr "u1"); ("username", VStr "alice")].

(** Accepts the token [good] only. *)
Definition verifyToken (token : string) : completion value :=
  if token =? "good" then Normal alice else Throw JsonWebTokenError.

(** Exact on the unreserved characters the samples use. *)
Definition encodeURIComponent (s : string) : completion string := Normal s.

(** Wikipedia knows one page; any other request is rejected (a 404). *)
Definition axios_get (url : string) (w : W) : completion value * W :=
  (if url =? "https://en.wikipedia.org/api/rest_v1/page/summary/Rocq"
   then Normal (VObj [("title", VStr "Rocq");
                      ("extract", VStr "Rocq is a proof assistant.")])
   else Throw AxiosError,
   (w ++ [url])%list).

Definition s0 : state W := mkState [] [].

Definition authorized (b : value) : request :=
  mkRequest (Some "Bearer good") b.

Definition anonymous (b : value) : request := mkRequest None b.

Definition task (taskType : string) (payload : value) : value :=
  VObj [("taskType", VStr taskType); ("payload", payload)].

Definition batch (tasks : list value) : value :=
  VObj [("tasks", VArr tasks)].

(** A planner task sent without its payload. *)
Definition planner_no_payload : value := VObj [("taskType", VStr "planner")].

Definition create_task : value :=
  task "execution" (VObj [("action", VStr "create"); ("data", VNum 7)]).

Definition ghost_task : value := task "ghost" (VObj []).

(** A research task about a page the stub network does not know. *)
Definition lost_page : value := task "research" (VObj [("query", VStr "Nowhere")]).

(** An execution task with an action the agent does not know. *)
Definition archive_task : value :=
  task "execution" (VObj [("action", VStr "archive"); ("data", VNum 7)]).

End Stub.

(* ------------------------------------------------------------------ *)
(** * The browser side: JSON transport and the two forms                *)
(* ------------------------------------------------------------------ *)

(** What the client reads back from a body sent with [res.json]:
    [JSON.stringify] leaves out the properties whose value is [undefined]
    and writes [null] for an [undefined] array element. *)
Fixpoint jsonify (v : value) : value :=
  match v with
  | VArr elems =>
      VArr (map (fun x => match x with
                          | VUndefined => VNull
                          | _ => jsonify x
                          end) elems)
  | VObj props =>
      VObj ((fix keep (l : list (string * value)) : list (string * value) :=
               match l with
               | [] => []
               | (k, x) :: rest =>
                   match x with
                   | VUndefined => keep rest
                   | _ => (k, jsonify x) :: keep rest
                   end
               end) props)
  | _ => v
  end.

(** No space character in the string. *)
Fixpoint spaceless (s : string) : bool :=
  match s with
  | EmptyString => true
  | String c rest => negb (Ascii.eqb c " "%char) && spaceless rest
  end.

(** axios resolves on a 2xx status and rejects on any other. *)
Definition resolves (r : response) : bool :=
  (200 <=? status r)%nat && (status r <? 300)%nat.

(** [err.response?.data?.error || fallback], for a rejection that carries
    the response [r]. *)
Definition error_message (r : response) (fallback : string) : value :=
  match jsonify (json r) with
  | VUndefined | VNull => VStr fallback
  | data =>
      match getProp data "error" with
      | Normal e => if truthy e then e else VStr fallback
      | Throw _ => VStr fallback
      end
  end.

(** ** AgentDashboard.tsx *)

(** The [result] and [error] state of the component. *)
Record view : Type := mkView { shown_result : value; shown_error : value }.

(** Lines 24-27: the payload built from the selected agent and the input. *)
Definition AgentDashboard_payload (agent input : string) : value :=
  let payload := VObj [] in
  let payload :=
    if agent =? "research" then VObj [("query", VStr input)] else payload in
  let payload :=
    if agent =? "planner" then VObj [("goal", VStr input)] else payload in
  let payload :=
    if agent =? "execution"
    then VObj [("action", VStr "create"); ("data", VStr input)]
    else payload in
  payload.

(** Lines 19-31: the request [handleTask] posts, given what
    [localStorage.getItem('token')] returned; [None] when it stops at
    'Not authenticated' and posts nothing. *)
Definition AgentDashboard_request (token : option string) (agent input : string)
  : option request :=
  match token with
  | None => None
  | Some tok =>
      if tok =? "" then None
      else Some (mkRequest (Some ("Bearer " ++ tok))
                   (VObj [("taskType", VStr agent);
                          ("payload", AgentDashboard_payload agent input)]))
  end.

(** Lines 17-18 and 32-35: what the component shows once the response is
    in.  A 2xx body fills [result]; anything else fills [error]. *)
Definition AgentDashboard_receive (r : response) : view :=
  if resolves r then
    match getProp (jsonify (json r)) "result" with
    | Normal v => mkView v (VStr "")
    | Throw _ => mkView VNull (VStr "Task failed")
    end
  else mkView VNull (error_message r "Task failed").

(** ** LoginForm.tsx *)

(** Line 15: the request [handleSubmit] posts. *)
Definition LoginForm_request (username password : string) : request :=
  mkRequest None
    (VObj [("username", VStr username); ("password", VStr password)]).

(** The token kept in [localStorage], the [error] state, and whether the
    router went to the dashboard. *)
Record login_view : Type := mkLoginView {
  stored_token : option string;
  login_error : value;
  at_dashboard : bool
}.

(** Lines 13-20, given the token [localStorage] held before.
    [localStorage.setItem] stores the string of whatever [res.data.token]
    is. *)
Definition LoginForm_receive (before : option string) (r : response)
  : login_view :=
  if resolves r then
    match getProp (jsonify (json r)) "token" with
    | Normal t =>
        match toString t with
        | Normal tok => mkLoginView (Some tok) (VStr "") true
        | Throw _ => mkLoginView before (VStr "Login failed") false
        end
    | Throw _ => mkLoginView before (VStr "Login failed") false
    end
  else mkLoginView before (error_message r "Login failed") false.

(* ------------------------------------------------------------------ *)
(** * A concrete user store                                            *)
(* ------------------------------------------------------------------ *)

Module StubDb.

(** The world is the collection of user documents, oldest first. *)
Definition W : Type := list value.

Definition has_username (u : string) (doc : value) : bool :=
  match getProp doc "username" with
  | Normal (VStr n) => n =? u
  | _ => false
  end.

Definition User_findOne (filter : value) (w : W) : completion value * W :=
  (match getProp filter "username" with
   | Normal (VStr u) =>
       Normal (match find (has_username u) w with
               | Some doc => doc
               | None => VNull
               end)
   | _ => Normal VNull
   end, w).

(** A toy hash: the password behind a prefix. *)
Definition bcrypt_hash (password : value) (rounds : nat) (w : W)
  : completion value * W :=
  (match password with
   | VStr p => Normal (VStr ("$" ++ p))
   | _ => Throw TypeError
   end, w).

Definition bcrypt_compare (password hash : value) : completion bool :=
  match password, hash with
  | VStr p, VStr h => Normal (h =? "$" ++ p)
  | _, _ => Throw TypeError
  end.

Definition User_new (fields : value) (w : W) : completion value * W :=
  (match fields with
   | VObj props => Normal (VObj (("_id", VNum (Z.of_nat (length w))) :: props))
   | _ => Throw TypeError
   end, w).

Definition User_save (doc : value) (w : W) : completion unit * W :=
  (Normal tt, (w ++ [doc])%list).

Definition signToken (claims : value) (w : W) : completion value * W :=
  (match getProp claims "username" with
   | Normal (VStr u) => Normal (VStr ("jwt." ++ u))
   | _ => Throw TypeError
   end, w).

Definition s0 : state W := mkState [] [].

Definition credentials (username password : string) : request :=
  mkRequest None
    (VObj [("username", VStr username); ("password", VStr password)]).

(** The document of a user [ann] whose password is [pw]. *)
Definition ann : value :=
  VObj [("_id", VNum 0); ("username", VStr "ann"); ("password", VStr "$pw")].

(** A store that holds [ann]. *)
Definition s1 : state W := mkState [ann] [].

End StubDb.

(* ------------------------------------------------------------------ *)
(** * Two more environments                                            *)
(* ------------------------------------------------------------------ *)

Module StubBare.

(** A network whose every page comes without an extract. *)
Definition axios_get (url : string) (w : Stub.W) : completion value * Stub.W :=
  (Normal (VObj [("title", VStr "Untitled")]), (w ++ [url])%list).

End StubBare.

Module StubDown.

(** A store that cannot be reached: every lookup is rejected. *)
Definition User_findOne (filter : value) (w : StubDb.W)
  : completion value * StubDb.W :=
  (Throw AxiosError, w).

End StubDown.

Section Gateway.

(** The outside world and the library functions the code calls. *)
Variable W : Type.
(** [verifyToken] of utils/jwt: the decoded token, or a throw. *)
Variable verifyToken : string -> completion value.
(** The built-in [encodeURIComponent] on a string. *)
Variable encodeURIComponent : string -> completion string.
(** [axios.get url]: the [data] of the response, or a rejection. *)
Variable axios_get : string -> W -> completion value * W.

Definition http_get (url : string) : M W value :=
  fun s => let (c, w') := axios_get url (world s) in
           (c, mkState w' (calls s)).

(** ** The three agents *)

(** researchAgent.ts *)
Definition researchAgent_handleTask (task : value) : M W value :=
  payload <- lift (getProp task "payload") ;;
  query <- lift (getProp payload "query") ;;
  q <- lift (toString query) ;;
  enc <- lift (encodeURIComponent q) ;;
  data <- http_get ("https://en.wikipedia.org/api/rest_v1/page/summary/" ++ enc) ;;
  extract <- lift (getProp data "extract") ;;
  ret (VObj [("summary", extract)]).

(** plannerAgent.ts *)
Definition plannerAgent_handleTask (task : value) : M W value :=
  payload <- lift (getProp task "payload") ;;
  goal <- lift (getProp payload "goal") ;;
  g <- lift (toString goal) ;;
  ret (VObj [("steps",
             VArr [VStr ("Define the goal: " ++ g);
                   VStr "Research requirements";
                   VStr "List resources";
                   VStr "Create timeline";
                   VStr "Assign tasks"])]).

(** [action === 'create'] and its siblings: strict equality with a string
    literal. *)
Definition is_string (v : value) (lit : string) : bool :=
  match v with
  | VStr s => s =? lit
  | _ => false
  end.

(** executionAgent.ts *)
Definition executionAgent_handleTask (task : value) : M W value :=
  payload <- lift (getProp task "payload") ;;
  action <- lift (getProp payload "action") ;;
  data <- lift (getProp payload "data") ;;
  if is_string action "create" then
    ret (VObj [("status", VStr "created"); ("data", data)])
  else if is_string action "read" then
    ret (VObj [("status", VStr "read"); ("data", data)])
  else if is_string action "update" then
    ret (VObj [("status", VStr "updated"); ("data", data)])
  else if is_string action "delete" then
    ret (VObj [("status", VStr "deleted"); ("data", data)])
  else
    ret (error_body "Unknown action").

Definition agent_body (a : Agent) : value -> M W value :=
  match a with
  | researchAgent => researchAgent_handleTask
  | plannerAgent => plannerAgent_handleTask
  | executionAgent => executionAgent_handleTask
  end.

Definition record_call (a : Agent) (task : value) : M W unit :=
  fun s => (Normal tt, mkState (world s) (calls s ++ [(a, task)])).

(** [a.handleTask(task)]: the invocation is journalled, then the body
    runs. *)
Definition handleTask (a : Agent) (task : value) : M W value :=
  _ <- record_call a task ;; agent_body a task.

(** [agents[k].handleTask(task)] on whatever [agents[k]] is: an inherited
    member has no [handleTask], and calling [undefined] throws. *)
Definition member_handleTask (m : member) (task : value) : M W value :=
  match m with
  | Registered a => handleTask a task
  | Inherited _ | NotFound => throw TypeError
  end.

(** ** POST /api/agent/task ([routes/agent.ts]) *)

(** [req.headers.authorization?.split(' ')[1]] *)
Definition bearer_token (req : request) : option string :=
  match authorization req with
  | None => None
  | Some h => nth_error (split h) 1
  end.

(** The body of the [try] block, lines 11-16. *)
Definition task_try (token : string) (rawBody : value) : M W response :=
  user <- lift (verifyToken token) ;;
  taskType <- lift (getProp rawBody "taskType") ;;
  payload <- lift (getProp rawBody "payload") ;;
  if negb (truthy taskType) || negb (truthy payload) then
    ret (mkResponse 400 (error_body "Missing fields"))
  else
    m <- lift (agents_index taskType) ;;
    if negb (member_truthy m) then
      ret (mkResponse 400 (error_body "Unknown agent"))
    else
      userId <- lift (getProp user "id") ;;
      result <- member_handleTask m
                  (VObj [("userId", userId); ("taskType", taskType);
                         ("payload", payload)]) ;;
      ret (mkResponse 200 (VObj [("agent", taskType); ("result", result)])).

Definition task_route (req : request) (s : state W) : reply * state W :=
  match bearer_token req with
  | None => (Sent (mkResponse 401 (error_body "No token")), s)
  | Some token =>
      if token =? "" then (Sent (mkResponse 401 (error_body "No token")), s)
      else
        match task_try token (body req) s with
        | (Normal r, s') => (Sent r, s')
        | (Throw _, s') =>
            (Sent (mkResponse 401 (error_body "Invalid token")), s')
        end
  end.

(** ** POST /api/mcp/coordinate ([setupMCPServer]) *)

Definition unknown_agent (taskType : value) : value :=
  VObj [("agent", taskType); ("error", VStr "Unknown agent")].

Definition agent_result (taskType result : value) : value :=
  VObj [("agent", taskType); ("result", result)].

(** One turn of the [for (const t of tasks)] loop: the object pushed onto
    [results]. *)
Definition coordinate_step (t : value) : M W value :=
  taskType <- lift (getProp t "taskType") ;;
  m <- lift (agents_index taskType) ;;
  if negb (member_truthy m) then ret (unknown_agent taskType)
  else
    result <- member_handleTask m t ;;
    ret (agent_result taskType result).

Fixpoint coordinate_loop (tasks : list value) (results : list value)
  : M W (list value) :=
  match tasks with
  | [] => ret results
  | t :: rest =>
      o <- coordinate_step t ;;
      coordinate_loop rest (results ++ [o])
  end.

Definition coordinate_route (req : request) (s : state W) : reply * state W :=
  match getProp (body req) "tasks" with
  | Throw e => (Unhandled e, s)
  | Normal (VArr tasks) =>
      match coordinate_loop tasks [] s with
      | (Normal results, s') =>
          (Sent (mkResponse 200 (VObj [("results", VArr results)])), s')
      | (Throw e, s') => (Unhandled e, s')
      end
  | Normal _ => (Sent (mkResponse 400 (error_body "Tasks must be array")), s)
  end.


(** ** The batch as a sequence of turns *)

(** What a turn that did not throw has done. *)
Definition turn (t o : value) (s s' : state W) : Prop :=
  exists taskType m,
    getProp t "taskType" = Normal taskType /\
    agents_index taskType = Normal m /\
    match m with
    | NotFound => o = unknown_agent taskType /\ s' = s
    | Registered a =>
        exists result,
          handleTask a t s = (Normal result, s') /\
          o = agent_result taskType result
    | Inherited _ => False
    end.

(** [steps tasks s outs s']: starting in [s], every task of the batch is
    processed in turn without a throw, producing [outs] and ending in [s']. *)
Inductive steps : list value -> state W -> list value -> state W -> Prop :=
| steps_nil s : steps [] s [] s
| steps_cons t rest s o s1 outs s2 :
    coordinate_step t s = (Normal o, s1) ->
    steps rest s1 outs s2 ->
    steps (t :: rest) s (o :: outs) s2.

(** No task of the batch throws when the batch is run from [s]. *)
Fixpoint no_task_throws (tasks : list value) (s : state W) : Prop :=
  match tasks with
  | [] => True
  | t :: rest =>
      exists o s1, coordinate_step t s = (Normal o, s1) /\ no_task_throws rest s1
  end.

(** [agents[taskType]] is [undefined]: the key names neither an agent nor an
    inherited member. *)
Definition unknown_to_agents (taskType : value) : Prop :=
  agents_index taskType = Normal NotFound.

(** A request that passes the token check with decoded token [user]. *)
Definition authenticated (req : request) (user : value) : Prop :=
  exists token,
    bearer_token req = Some token /\ token <> "" /\
    verifyToken token = Normal user.

(** The fields the route destructures from the body. *)
Definition body_fields (req : request) (taskType payload : value) : Prop :=
  getProp (body req) "taskType" = Normal taskType /\
  getProp (body req) "payload" = Normal payload.

(** The task object the single-task route builds for the handler. *)
Definition bound_task (userId taskType payload : value) : value :=
  VObj [("userId", userId); ("taskType", taskType); ("payload", payload)].

(** The state right after [a.handleTask(task)] has been entered. *)
Definition journalled (a : Agent) (task : value) (s : state W) : state W :=
  mkState (world s) (calls s ++ [(a, task)]).

(** The body of a successful batch response. *)
Definition results_body (results : list value) : value :=
  VObj [("results", VArr results)].

Definition missing_fields : response :=
  mkResponse 400 (error_body "Missing fields").

Definition invalid_token : response :=
  mkResponse 401 (error_body "Invalid token").

(** ** POST /api/auth/register and /api/auth/login ([routes/auth.ts]) *)

(** The user model, bcrypt and the token signer.  [User.findOne] yields the
    document or [null]; [new User] builds the document (with its [_id]);
    the property names read from a document or a body here, username,
    password and _id, live on no built-in prototype either. *)
Variable User_findOne : value -> W -> completion value * W.
Variable User_new : value -> W -> completion value * W.
Variable User_save : value -> W -> completion unit * W.
Variable bcrypt_hash : value -> nat -> W -> completion value * W.
Variable bcrypt_compare : value -> value -> completion bool.
Variable signToken : value -> W -> completion value * W.

(** An awaited call into the outside world. *)
Definition io {A : Type} (f : W -> completion A * W) : M W A :=
  fun s => let (c, w') := f (world s) in (c, mkState w' (calls s)).

Definition token_body (token : value) : value := VObj [("token", token)].

(** Lines 9-17. *)
Definition register_body (rawBody : value) : M W response :=
  username <- lift (getProp rawBody "username") ;;
  password <- lift (getProp rawBody "password") ;;
  if negb (truthy username) || negb (truthy password) then
    ret (mkResponse 400 (error_body "Missing fields"))
  else
    existing <- io (User_findOne (VObj [("username", username)])) ;;
    if truthy existing then
      ret (mkResponse 400 (error_body "User exists"))
    else
      hash <- io (bcrypt_hash password 10) ;;
      user <- io (User_new (VObj [("username", username); ("password", hash)])) ;;
      _ <- io (User_save user) ;;
      id <- lift (getProp user "_id") ;;
      token <- io (signToken (VObj [("id", id); ("username", username)])) ;;
      ret (mkResponse 200 (token_body token)).

(** Lines 21-27. *)
Definition login_body (rawBody : value) : M W response :=
  username <- lift (getProp rawBody "username") ;;
  password <- lift (getProp rawBody "password") ;;
  user <- io (User_findOne (VObj [("username", username)])) ;;
  if negb (truthy user) then
    ret (mkResponse 400 (error_body "Invalid credentials"))
  else
    stored <- lift (getProp user "password") ;;
    valid <- lift (bcrypt_compare password stored) ;;
    if negb valid then
      ret (mkResponse 400 (error_body "Invalid credentials"))
    else
      id <- lift (getProp user "_id") ;;
      token <- io (signToken (VObj [("id", id); ("username", username)])) ;;
      ret (mkResponse 200 (token_body token)).

(** Neither handler has a [try]: a throw leaves the route unanswered. *)
Definition uncaught (m : M W response) (s : state W) : reply * state W :=
  match m s with
  | (Normal r, s') => (Sent r, s')
  | (Throw e, s') => (Unhandled e, s')
  end.

Definition register_route (req : request) : state W -> reply * state W :=
  uncaught (register_body (body req)).

Definition login_route (req : request) : state W -> reply * state W :=
  uncaught (login_body (body req)).

(** ** Predicates on batches *)

(** A batch element that cannot throw: it names no agent, or it is an
    execution task whose payload is neither [undefined] nor [null]. *)
Definition harmless (t : value) : Prop :=
  exists taskType,
    getProp t "taskType" = Normal taskType /\
    (unknown_to_agents taskType \/
     (agents_index taskType = Normal (Registered executionAgent) /\
      exists payload x,
        getProp t "payload" = Normal payload /\
        getProp payload "action" = Normal x)).

(** A batch element that does not reach the research agent. *)
Definition offline (t : value) : Prop :=
  forall taskType,
    getProp t "taskType" = Normal taskType ->
    agents_index taskType <> Normal (Registered researchAgent).

(* ------------------------------------------------------------------ *)
(** * Properties                                                       *)
(* ------------------------------------------------------------------ *)

(** Unfold the monad and split on whatever the code branches on. *)
Ltac run := unfold bind, lift, ret, throw in *; simpl in *.

Ltac split_match :=
  match goal with
  | |- context [match ?x with _ => _ end] => destruct x eqn:?
  | H : context [match ?x with _ => _ end] |- _ => destruct x eqn:?
  end.

Ltac pair_inv :=
  repeat match goal with
         | H : (_, _) = (_, _) |- _ => inversion H; clear H; subst
         end.

(** Close a branch whose reply cannot be the one assumed. *)
Ltac stop :=
  simpl;
  let H := fresh in
  intros H; try discriminate H;
  inversion H; subst; simpl in *; intros;
  match goal with E : _ = 200 |- _ => discriminate E end.

Create HintDb gateway.

(** ** The journal *)

Lemma http_get_calls url s c s' :
  http_get url s = (c, s') -> calls s' = calls s.
Proof.
  unfold http_get. destruct (axios_get url (world s)) as [c0 w'].
  intros H. pair_inv. reflexivity.
Qed.

(** The body of a handler never touches the journal. *)
Lemma agent_body_calls a task s c s' :
  agent_body a task s = (c, s') -> calls s' = calls s.
Proof.
  destruct a; unfold agent_body, researchAgent_handleTask,
    plannerAgent_handleTask, executionAgent_handleTask; run;
    repeat (split_match; pair_inv; try discriminate);
    intros H; pair_inv; eauto using http_get_calls.
Qed.

(** An invocation adds exactly one entry: the agent and the very object it
    was given. *)
Lemma handleTask_calls a task s c s' :
  handleTask a task s = (c, s') -> calls s' = (calls s ++ [(a, task)])%list.
Proof.
  unfold handleTask, record_call, bind. intros H.
  apply agent_body_calls in H. exact H.
Qed.

(** ** One turn of the batch loop *)

Lemma step_unknown t taskType s :
  getProp t "taskType" = Normal taskType ->
  unknown_to_agents taskType ->
  coordinate_step t s = (Normal (unknown_agent taskType), s).
Proof.
  unfold unknown_to_agents, coordinate_step. run.
  intros -> ->. reflexivity.
Qed.

Lemma step_registered t taskType a s :
  getProp t "taskType" = Normal taskType ->
  agents_index taskType = Normal (Registered a) ->
  coordinate_step t s =
    match handleTask a t s with
    | (Normal result, s') => (Normal (agent_result taskType result), s')
    | (Throw e, s') => (Throw e, s')
    end.
Proof.
  unfold coordinate_step. run. intros -> ->. simpl.
  destruct (handleTask a t s) as [[r|e] s']; reflexivity.
Qed.

Lemma step_inherited t taskType name s :
  getProp t "taskType" = Normal taskType ->
  agents_index taskType = Normal (Inherited name) ->
  coordinate_step t s = (Throw TypeError, s).
Proof.
  unfold coordinate_step. run. intros -> ->. reflexivity.
Qed.

Lemma step_inv t s o s' :
  coordinate_step t s = (Normal o, s') -> turn t o s s'.
Proof.
  unfold coordinate_step, turn. run.
  destruct (getProp t "taskType") as [taskType|e] eqn:Ht; [|discriminate].
  destruct (agents_index taskType) as [m|e] eqn:Hm; [|discriminate].
  intros H. exists taskType, m. repeat split; trivial.
  destruct m as [a|name|]; simpl in H.
  - destruct (handleTask a t s) as [[r|e] s1] eqn:Hh; pair_inv; try discriminate.
    exists r. split; reflexivity.
  - discriminate.
  - pair_inv. split; reflexivity.
Qed.

(** The journal grows by at most one entry per turn, and that entry holds
    the batch element itself. *)
Lemma step_calls t s c s' :
  coordinate_step t s = (c, s') ->
  calls s' = calls s \/ exists a, calls s' = (calls s ++ [(a, t)])%list.
Proof.
  unfold coordinate_step. run.
  destruct (getProp t "taskType") as [taskType|e]; [|intros; pair_inv; auto].
  destruct (agents_index taskType) as [[a|name|]|e]; simpl;
    try (intros; pair_inv; auto; fail).
  destruct (handleTask a t s) as [[r|e] s1] eqn:Hh; intros H; pair_inv;
    right; exists a; eapply handleTask_calls; eauto.
Qed.

(** ** The loop *)

Lemma loop_steps tasks : forall results s out s',
  coordinate_loop tasks results s = (Normal out, s') ->
  exists outs, out = (results ++ outs)%list /\ steps tasks s outs s'.
Proof.
  induction tasks as [|t rest IH]; intros results s out s' H; simpl in H; run.
  - pair_inv. exists []. rewrite app_nil_r. split; [reflexivity|constructor].
  - destruct (coordinate_step t s) as [[o|e] s1] eqn:Hs; [|discriminate].
    apply IH in H. destruct H as (outs & -> & Hrest).
    exists (o :: outs). rewrite <- app_assoc. split; [reflexivity|].
    econstructor; eauto.
Qed.

Lemma steps_loop tasks s outs s' :
  steps tasks s outs s' ->
  forall results,
    coordinate_loop tasks results s = (Normal (results ++ outs)%list, s').
Proof.
  induction 1 as [s|t rest s o s1 outs s2 Hs _ IH]; intros results; simpl; run.
  - rewrite app_nil_r. reflexivity.
  - rewrite Hs, IH, <- app_assoc. reflexivity.
Qed.

Lemma steps_length tasks s outs s' :
  steps tasks s outs s' -> length outs = length tasks.
Proof. induction 1; simpl; congruence. Qed.

Lemma no_task_throws_steps tasks : forall s,
  no_task_throws tasks s -> exists outs s', steps tasks s outs s'.
Proof.
  induction tasks as [|t rest IH]; simpl; intros s H.
  - exists [], s. constructor.
  - destruct H as (o & s1 & Hs & Hrest).
    destruct (IH _ Hrest) as (outs & s' & Hsteps).
    exists (o :: outs), s'. econstructor; eauto.
Qed.

Lemma steps_no_task_throws tasks s outs s' :
  steps tasks s outs s' -> no_task_throws tasks s.
Proof. induction 1; simpl; eauto. Qed.

(** The first turn that throws ends the loop with that throw. *)
Lemma loop_throw pre t post : forall results s out s1 e s2,
  coordinate_loop pre results s = (Normal out, s1) ->
  coordinate_step t s1 = (Throw e, s2) ->
  coordinate_loop (pre ++ t :: post) results s = (Throw e, s2).
Proof.
  induction pre as [|p pre IH]; intros results s out s1 e s2 Hpre Ht;
    simpl in *; run.
  - pair_inv. rewrite Ht. reflexivity.
  - destruct (coordinate_step p s) as [[o|e0] s0] eqn:Hp; [|discriminate].
    eapply IH; eauto.
Qed.

Lemma loop_calls tasks : forall results s c s',
  coordinate_loop tasks results s = (c, s') ->
  exists cs, calls s' = (calls s ++ cs)%list /\
             Forall (fun k : call => In (snd k) tasks) cs.
Proof.
  induction tasks as [|t rest IH]; intros results s c s' H; simpl in H; run.
  - pair_inv. exists []. rewrite app_nil_r. split; [reflexivity|constructor].
  - destruct (coordinate_step t s) as [[o|e] s1] eqn:Hs.
    + apply IH in H. destruct H as (cs & Hcs & Hall).
      assert (Hall' : Forall (fun k : call => In (snd k) (t :: rest)) cs).
      { eapply Forall_impl; [|exact Hall]. simpl. auto. }
      destruct (step_calls _ _ _ _ Hs) as [Heq|[a Heq]].
      * exists cs. rewrite Hcs, Heq. split; [reflexivity|exact Hall'].
      * exists ((a, t) :: cs). rewrite Hcs, Heq, <- app_assoc.
        split; [reflexivity|]. constructor; [simpl; auto|exact Hall'].
    + pair_inv.
      destruct (step_calls _ _ _ _ Hs) as [Heq|[a Heq]].
      * exists []. rewrite app_nil_r. split; [exact Heq|constructor].
      * exists [(a, t)]. split; [exact Heq|]. constructor; simpl; auto.
Qed.

(** ** The single-task route *)

(** The route once the token has been accepted and the body destructured:
    the three guards in the order of the source, every throw of the [try]
    block answered by the [catch]. *)
Lemma task_route_flow req user taskType payload s :
  authenticated req user ->
  body_fields req taskType payload ->
  task_route req s =
    if negb (truthy taskType) || negb (truthy payload)
    then (Sent missing_fields, s)
    else match agents_index taskType with
         | Throw _ => (Sent invalid_token, s)
         | Normal m =>
             if negb (member_truthy m)
             then (Sent (mkResponse 400 (error_body "Unknown agent")), s)
             else match getProp user "id" with
                  | Throw _ => (Sent invalid_token, s)
                  | Normal userId =>
                      match member_handleTask m
                              (bound_task userId taskType payload) s with
                      | (Normal result, s') =>
                          (Sent (mkResponse 200
                                   (agent_result taskType result)), s')
                      | (Throw _, s') => (Sent invalid_token, s')
                      end
                  end
         end.
Proof.
  intros (token & Hb & Hne & Hv) (Ht & Hp).
  unfold task_route. rewrite Hb.
  destruct (token =? "") eqn:E; [apply String.eqb_eq in E; contradiction|].
  unfold task_try. run. rewrite Hv, Ht, Hp.
  destruct (negb (truthy taskType) || negb (truthy payload)); [reflexivity|].
  destruct (agents_index taskType) as [m|e]; [|reflexivity].
  destruct (negb (member_truthy m)); [reflexivity|].
  destruct (getProp user "id") as [userId|e]; [|reflexivity].
  unfold bound_task.
  destruct (member_handleTask m _ s) as [[r|e] s']; reflexivity.
Qed.

(** The single-task route answers every request: nothing escapes it. *)
Lemma task_route_sends req s :
  exists r s', task_route req s = (Sent r, s').
Proof.
  unfold task_route.
  destruct (bearer_token req) as [token|]; [|eauto].
  destruct (token =? ""); [eauto|].
  destruct (task_try token (body req) s) as [[r|e] s']; eauto.
Qed.

Lemma turn_agent t o s s' :
  turn t o s s' -> getProp o "agent" = getProp t "taskType".
Proof.
  intros (taskType & m & Ht & _ & Hm). rewrite Ht.
  destruct m as [a|name|].
  - destruct Hm as (r & _ & ->). reflexivity.
  - contradiction.
  - destruct Hm as (-> & _). reflexivity.
Qed.

Lemma coordinate_route_steps req tasks s outs s' :
  getProp (body req) "tasks" = Normal (VArr tasks) ->
  steps tasks s outs s' ->
  coordinate_route req s = (Sent (mkResponse 200 (results_body outs)), s').
Proof.
  intros Hb Hs. unfold coordinate_route. rewrite Hb.
  rewrite (steps_loop _ _ _ _ Hs []). reflexivity.
Qed.

(* ------------------------------------------------------------------ *)
(** * The batch coordinator                                            *)
(* ------------------------------------------------------------------ *)

(** C1 (amended): for every batch of N tasks none of which throws while the
    batch runs (a task naming no agent does not throw: it gets its
    unknown-agent outcome), the coordinate route answers 200 with exactly N
    outcomes, one per task and in the order of the input: outcome [i] is
    what the turn of task [i] produced and carries that task's taskType.
    A batch in which some task throws is aborted: the route sends no
    outcome. *)
Theorem C1_batch_outcomes_in_order req tasks s :
  getProp (body req) "tasks" = Normal (VArr tasks) ->
  (no_task_throws tasks s ->
   exists results s',
     coordinate_route req s = (Sent (mkResponse 200 (results_body results)), s') /\
     length results = length tasks /\
     Forall2 (fun t o =>
                getProp o "agent" = getProp t "taskType" /\
                exists s1 s2, coordinate_step t s1 = (Normal o, s2))
             tasks results) /\
  (~ no_task_throws tasks s ->
   exists e s', coordinate_route req s = (Unhandled e, s')).
Proof.
  intros Hb. split.
  - intros Hclean.
    destruct (no_task_throws_steps _ _ Hclean) as (outs & s' & Hs).
    exists outs, s'. split; [eauto using coordinate_route_steps|].
    split; [eauto using steps_length|].
    clear Hb Hclean. induction Hs; constructor; trivial.
    split; [|eauto]. eapply turn_agent, step_inv; eauto.
  - intros Hthrows. unfold coordinate_route. rewrite Hb.
    destruct (coordinate_loop tasks [] s) as [[out|e] s'] eqn:Hl; [|eauto].
    exfalso. apply Hthrows.
    destruct (loop_steps _ _ _ _ _ Hl) as (outs & _ & Hs).
    eauto using steps_no_task_throws.
Qed.

(** C2 (amended): a failure raised inside [handleTask] is never turned into
    a dispatch outcome.  On the single-task route it is caught by the
    route's own try/catch and answered with the 401 response of that catch
    (the single-task route answers every request, nothing escapes it); on
    the batch route nothing catches it: the loop stops there and the route
    sends no response. *)
Theorem C2_handler_failure_paths :
  (forall req user taskType payload a userId s e s',
      authenticated req user ->
      body_fields req taskType payload ->
      truthy taskType = true -> truthy payload = true ->
      agents_index taskType = Normal (Registered a) ->
      getProp user "id" = Normal userId ->
      handleTask a (bound_task userId taskType payload) s = (Throw e, s') ->
      task_route req s = (Sent invalid_token, s')) /\
  (forall req s, exists r s', task_route req s = (Sent r, s')) /\
  (forall req pre t post taskType a s outs s1 e s2,
      getProp (body req) "tasks" = Normal (VArr (pre ++ t :: post)) ->
      steps pre s outs s1 ->
      getProp t "taskType" = Normal taskType ->
      agents_index taskType = Normal (Registered a) ->
      handleTask a t s1 = (Throw e, s2) ->
      coordinate_route req s = (Unhandled e, s2)).
Proof.
  split; [|split].
  - intros req user taskType payload a userId s e s' Ha Hb Ht Hp Hm Hu Hh.
    rewrite (task_route_flow _ _ _ _ _ Ha Hb), Ht, Hp, Hm, Hu. simpl.
    rewrite Hh. reflexivity.
  - apply task_route_sends.
  - intros req pre t post taskType a s outs s1 e s2 Hb Hpre Ht Hm Hh.
    unfold coordinate_route. rewrite Hb.
    erewrite loop_throw; [reflexivity|apply (steps_loop _ _ _ _ Hpre)|].
    rewrite (step_registered _ _ _ _ Ht Hm), Hh. reflexivity.
Qed.

(** C3 (amended): in a batch none of whose tasks throws, every task whose
    taskType names no property of [agents] gets
    [{ agent: taskType, error: 'Unknown agent' }] at its own index, produced
    without invoking a handler (the turn leaves the state, journal included,
    as it was), and every other index holds [{ agent, result }] with the
    result its own handler returned. *)
Theorem C3_unknown_agent_isolated req tasks s :
  getProp (body req) "tasks" = Normal (VArr tasks) ->
  no_task_throws tasks s ->
  exists results s',
    coordinate_route req s = (Sent (mkResponse 200 (results_body results)), s') /\
    Forall2 (fun t o =>
               exists taskType,
                 getProp t "taskType" = Normal taskType /\
                 ((unknown_to_agents taskType /\
                   o = unknown_agent taskType /\
                   forall s1, coordinate_step t s1 = (Normal o, s1))
                  \/
                  (exists a result s1 s2,
                      agents_index taskType = Normal (Registered a) /\
                      handleTask a t s1 = (Normal result, s2) /\
                      o = agent_result taskType result)))
            tasks results.
Proof.
  intros Hb Hclean.
  destruct (no_task_throws_steps _ _ Hclean) as (outs & s' & Hs).
  exists outs, s'. split; [eauto using coordinate_route_steps|].
  clear Hb Hclean. induction Hs as [|t rest s o s1 outs s2 Hstep _ IH];
    constructor; trivial.
  destruct (step_inv _ _ _ _ Hstep) as (taskType & m & Ht & Hm & Hcase).
  exists taskType. split; [exact Ht|].
  destruct m as [a|name|].
  - destruct Hcase as (r & Hh & ->). right. exists a, r, s, s1. auto.
  - contradiction.
  - destruct Hcase as (-> & _). left. repeat split; trivial.
    intros s0. apply step_unknown; assumption.
Qed.

(** ** The execution agent *)

Lemma is_string_spec v lit : is_string v lit = true <-> v = VStr lit.
Proof.
  destruct v; simpl; try (split; [discriminate|intros H; discriminate]).
  rewrite String.eqb_eq. split; [intros ->; reflexivity|intros H; congruence].
Qed.

Lemma is_string_other v lit : v <> VStr lit -> is_string v lit = false.
Proof.
  intros H. destruct (is_string v lit) eqn:E; [|reflexivity].
  apply is_string_spec in E. contradiction.
Qed.

(** A truthy value is neither [undefined] nor [null]: reading a property
    through it does not throw. *)
Lemma getProp_truthy v p : truthy v = true -> exists x, getProp v p = Normal x.
Proof. destruct v; simpl; intros H; try discriminate; eauto. Qed.

Lemma executionAgent_runs task payload action data s :
  getProp task "payload" = Normal payload ->
  getProp payload "action" = Normal action ->
  getProp payload "data" = Normal data ->
  handleTask executionAgent task s =
    (Normal
       (if is_string action "create"
        then VObj [("status", VStr "created"); ("data", data)]
        else if is_string action "read"
        then VObj [("status", VStr "read"); ("data", data)]
        else if is_string action "update"
        then VObj [("status", VStr "updated"); ("data", data)]
        else if is_string action "delete"
        then VObj [("status", VStr "deleted"); ("data", data)]
        else error_body "Unknown action"),
     journalled executionAgent task s).
Proof.
  intros Hp Ha Hd.
  unfold handleTask, record_call, agent_body, executionAgent_handleTask.
  run. rewrite Hp, Ha, Hd.
  repeat (destruct (is_string action _); [reflexivity|]). reflexivity.
Qed.

(* ------------------------------------------------------------------ *)
(** * The single-task route                                            *)
(* ------------------------------------------------------------------ *)

(** C4 (amended): for every authenticated single-task request whose
    taskType and payload are both truthy (a field that is present but
    falsy, such as a payload of 0, is stopped earlier by the 'Missing
    fields' guard) and whose taskType names no property of [agents], the
    route does not throw and invokes no handler (the state is returned as
    it was); it answers with status 400 and the body
    [{ error: 'Unknown agent' }], which has no agent field. *)
Theorem C4_unknown_agent_single req user taskType payload s :
  authenticated req user ->
  body_fields req taskType payload ->
  truthy taskType = true -> truthy payload = true ->
  unknown_to_agents taskType ->
  task_route req s = (Sent (mkResponse 400 (error_body "Unknown agent")), s).
Proof.
  intros Ha Hb Ht Hp Hm. red in Hm.
  rewrite (task_route_flow _ _ _ _ _ Ha Hb), Ht, Hp, Hm. reflexivity.
Qed.

(** C5: a single-task request whose bearer credential is missing (no
    header, no second word in it, or an empty one) or rejected by
    [verifyToken] is answered with status 401, and no handler is invoked:
    the journal of invocations is the one the request found. *)
Theorem C5_auth_gate req s :
  (bearer_token req = None \/
   bearer_token req = Some "" \/
   exists token e, bearer_token req = Some token /\ verifyToken token = Throw e) ->
  exists r s',
    task_route req s = (Sent r, s') /\ status r = 401 /\ calls s' = calls s.
Proof.
  unfold task_route. intros [H|[H|(token & e & H & Hv)]]; rewrite H.
  - eexists _, s. repeat split.
  - eexists _, s. repeat split.
  - destruct (token =? ""); [eexists _, s; repeat split|].
    unfold task_try. run. rewrite Hv. eexists _, s. repeat split.
Qed.

(** C6 (amended): the guard tests taskType before payload, but it reports
    one undifferentiated error.  For every authenticated request whose body
    misses taskType, the payload being there or not, the answer is 400
    [{ error: 'Missing fields' }], and that is exactly the answer given to a
    body that misses only its payload. *)
Theorem C6_missing_fields_undifferentiated req user taskType payload s :
  authenticated req user ->
  body_fields req taskType payload ->
  truthy taskType = false ->
  task_route req s = (Sent missing_fields, s) /\
  forall req' user' taskType' payload',
    authenticated req' user' ->
    body_fields req' taskType' payload' ->
    truthy taskType' = true -> truthy payload' = false ->
    task_route req' s = task_route req s.
Proof.
  intros Ha Hb Ht.
  assert (H : task_route req s = (Sent missing_fields, s)).
  { rewrite (task_route_flow _ _ _ _ _ Ha Hb), Ht. reflexivity. }
  split; [exact H|].
  intros req' user' taskType' payload' Ha' Hb' Ht' Hp'.
  rewrite H, (task_route_flow _ _ _ _ _ Ha' Hb'), Ht', Hp'. reflexivity.
Qed.

(** C7 (amended): for every authenticated request body with a truthy
    taskType, the route answers 400 [{ error: 'Missing fields' }] exactly
    when the payload is absent or falsy (null, false, 0, the empty string);
    an empty object or array passes, and the task then goes on to the
    registry: with a registered taskType the handler is invoked. *)
Theorem C7_payload_guard req user taskType payload s :
  authenticated req user ->
  body_fields req taskType payload ->
  truthy taskType = true ->
  (fst (task_route req s) = Sent missing_fields <-> truthy payload = false) /\
  (payload = VObj [] \/ payload = VArr [] ->
   fst (task_route req s) <> Sent missing_fields) /\
  (truthy payload = true ->
   forall a userId,
     agents_index taskType = Normal (Registered a) ->
     getProp user "id" = Normal userId ->
     calls (snd (task_route req s)) =
       (calls s ++ [(a, bound_task userId taskType payload)])%list).
Proof.
  intros Ha Hb Ht.
  assert (Hpass : truthy payload = true ->
                  fst (task_route req s) <> Sent missing_fields).
  { intros Hp. rewrite (task_route_flow _ _ _ _ _ Ha Hb), Ht, Hp. simpl.
    destruct (agents_index taskType) as [m|e]; [|discriminate].
    destruct (negb (member_truthy m)); [discriminate|].
    destruct (getProp user "id") as [userId|e]; [|discriminate].
    destruct (member_handleTask m _ s) as [[r|e] s']; discriminate. }
  split; [|split].
  - split.
    + intros H. destruct (truthy payload) eqn:Hp; [|reflexivity].
      exfalso. apply Hpass; trivial.
    + intros Hp. rewrite (task_route_flow _ _ _ _ _ Ha Hb), Ht, Hp.
      reflexivity.
  - intros [->| ->]; apply Hpass; reflexivity.
  - intros Hp a userId Hm Hu.
    rewrite (task_route_flow _ _ _ _ _ Ha Hb), Ht, Hp, Hm, Hu. simpl.
    destruct (handleTask a _ s) as [[r|e] s'] eqn:Hh; simpl;
      eapply handleTask_calls; eauto.
Qed.

(** C8: on the single-task route the handler of a validated, authenticated
    task is invoked once, with the object
    [{ userId: user.id, taskType, payload }], the identity decoded from the
    token attached; on the batch route each handler receives the batch
    element itself, exactly as it came in the request, with nothing
    attached. *)
Theorem C8_identity_binding :
  (forall req user taskType payload a userId s,
      authenticated req user ->
      body_fields req taskType payload ->
      truthy taskType = true -> truthy payload = true ->
      agents_index taskType = Normal (Registered a) ->
      getProp user "id" = Normal userId ->
      calls (snd (task_route req s)) =
        (calls s ++ [(a, bound_task userId taskType payload)])%list) /\
  (forall req tasks s,
      getProp (body req) "tasks" = Normal (VArr tasks) ->
      exists cs,
        calls (snd (coordinate_route req s)) = (calls s ++ cs)%list /\
        Forall (fun k : call => In (snd k) tasks) cs) /\
  (forall t taskType a s,
      getProp t "taskType" = Normal taskType ->
      agents_index taskType = Normal (Registered a) ->
      calls (snd (coordinate_step t s)) = (calls s ++ [(a, t)])%list).
Proof.
  split; [|split].
  - intros req user taskType payload a userId s Ha Hb Ht Hp Hm Hu.
    rewrite (task_route_flow _ _ _ _ _ Ha Hb), Ht, Hp, Hm, Hu. simpl.
    destruct (handleTask a _ s) as [[r|e] s'] eqn:Hh; simpl;
      eapply handleTask_calls; eauto.
  - intros req tasks s Hb. unfold coordinate_route. rewrite Hb.
    destruct (coordinate_loop tasks [] s) as [[rs|e] s'] eqn:Hl; simpl;
      eapply loop_calls; eauto.
  - intros t taskType a s Ht Hm.
    rewrite (step_registered _ _ _ _ Ht Hm).
    destruct (handleTask a t s) as [[r|e] s'] eqn:Hh; simpl;
      eapply handleTask_calls; eauto.
Qed.

(** C9 (the code at the failing inputs): a batch element whose taskType is
    the name of a member of [Object.prototype], [constructor] for one, is
    not a registered agent and yet gets no unknown-agent outcome.
    [agents[name]] is inherited and truthy, the guard lets it through, the
    call of its missing [handleTask] throws, and the route sends nothing. *)
Theorem C9_inherited_name_escapes_guard auth name payload s :
  In name Object_prototype ->
  ownAgent agents name = None /\
  coordinate_step (VObj [("taskType", VStr name); ("payload", payload)]) s
  = (Throw TypeError, s) /\
  coordinate_route
    (mkRequest auth
       (VObj [("tasks",
               VArr [VObj [("taskType", VStr name); ("payload", payload)]])]))
    s
  = (Unhandled TypeError, s).
Proof.
  intros H. simpl in H.
  repeat (destruct H as [<-|H]; [repeat split|]).
  contradiction.
Qed.

(** C10: [executionAgent.handleTask] answers the four known actions with
    the matching status and [payload.data], and any other action with the
    value [{ error: 'Unknown action' }], returned normally; the single-task
    route wraps that value as the result of a 200 response. *)
Theorem C10_execution_agent :
  (forall task payload action data s,
      getProp task "payload" = Normal payload ->
      getProp payload "action" = Normal action ->
      getProp payload "data" = Normal data ->
      (action = VStr "create" ->
       handleTask executionAgent task s
       = (Normal (VObj [("status", VStr "created"); ("data", data)]),
          journalled executionAgent task s)) /\
      (action = VStr "read" ->
       handleTask executionAgent task s
       = (Normal (VObj [("status", VStr "read"); ("data", data)]),
          journalled executionAgent task s)) /\
      (action = VStr "update" ->
       handleTask executionAgent task s
       = (Normal (VObj [("status", VStr "updated"); ("data", data)]),
          journalled executionAgent task s)) /\
      (action = VStr "delete" ->
       handleTask executionAgent task s
       = (Normal (VObj [("status", VStr "deleted"); ("data", data)]),
          journalled executionAgent task s)) /\
      (action <> VStr "create" -> action <> VStr "read" ->
       action <> VStr "update" -> action <> VStr "delete" ->
       handleTask executionAgent task s
       = (Normal (error_body "Unknown action"),
          journalled executionAgent task s))) /\
  (forall req user taskType payload action userId s,
      authenticated req user ->
      body_fields req taskType payload ->
      truthy taskType = true -> truthy payload = true ->
      agents_index taskType = Normal (Registered executionAgent) ->
      getProp user "id" = Normal userId ->
      getProp payload "action" = Normal action ->
      action <> VStr "create" -> action <> VStr "read" ->
      action <> VStr "update" -> action <> VStr "delete" ->
      task_route req s =
        (Sent (mkResponse 200
                 (VObj [("agent", taskType);
                        ("result", error_body "Unknown action")])),
         journalled executionAgent (bound_task userId taskType payload) s)).
Proof.
  split.
  - intros task payload action data s Hp Ha Hd.
    rewrite (executionAgent_runs _ _ _ _ _ Hp Ha Hd).
    repeat split.
    + intros ->. reflexivity.
    + intros ->. reflexivity.
    + intros ->. reflexivity.
    + intros ->. reflexivity.
    + intros H1 H2 H3 H4.
      rewrite !is_string_other by assumption. reflexivity.
  - intros req user taskType payload action userId s
           Hau Hb Ht Hp Hm Hu Ha H1 H2 H3 H4.
    destruct (getProp_truthy payload "data" Hp) as [data Hd].
    rewrite (task_route_flow _ _ _ _ _ Hau Hb), Ht, Hp, Hm, Hu. simpl.
    rewrite (executionAgent_runs _ payload action data); trivial.
    rewrite !is_string_other by assumption. reflexivity.
Qed.

(* ------------------------------------------------------------------ *)
(** * Further properties of the single-task route                      *)
(* ------------------------------------------------------------------ *)

(** ** The authorization header *)

Lemma split_word scheme rest :
  spaceless scheme = true ->
  split (scheme ++ " " ++ rest) = scheme :: split rest.
Proof.
  induction scheme as [|c scheme IH]; simpl; intros H.
  - reflexivity.
  - apply andb_prop in H. destruct H as [Hc Hs].
    destruct (Ascii.eqb c " "%char); [discriminate|].
    specialize (IH Hs). simpl in IH. rewrite IH. reflexivity.
Qed.

Lemma split_spaceless s : spaceless s = true -> split s = [s].
Proof.
  induction s as [|c s IH]; simpl; intros H.
  - reflexivity.
  - apply andb_prop in H. destruct H as [Hc Hs].
    destruct (Ascii.eqb c " "%char); [discriminate|].
    rewrite (IH Hs). reflexivity.
Qed.

Lemma split_not_nil s : split s <> [].
Proof.
  destruct s as [|c s]; simpl; [discriminate|].
  destruct (Ascii.eqb c " "%char); [discriminate|].
  destruct (split s); discriminate.
Qed.

(** The token is the second word of the header, whatever the first is. *)
Lemma bearer_token_second_word scheme rest b :
  spaceless scheme = true ->
  bearer_token (mkRequest (Some (scheme ++ " " ++ rest)) b)
  = Some (hd "" (split rest)).
Proof.
  intros H. unfold bearer_token. cbn [authorization].
  rewrite (split_word _ _ H). simpl.
  destruct (split rest) eqn:E; [|reflexivity].
  exfalso. exact (split_not_nil _ E).
Qed.

(** X1: the route never looks at the scheme word of the Authorization
    header: with any first word that holds no space, the request is
    answered exactly as with [Bearer], and a token without spaces is read
    back whole. *)
Theorem scheme_word_unchecked scheme tok b s :
  spaceless scheme = true ->
  task_route (mkRequest (Some (scheme ++ " " ++ tok)) b) s
  = task_route (mkRequest (Some ("Bearer " ++ tok)) b) s /\
  (spaceless tok = true ->
   bearer_token (mkRequest (Some (scheme ++ " " ++ tok)) b) = Some tok).
Proof.
  intros H. split.
  - unfold task_route.
    change ("Bearer " ++ tok) with ("Bearer" ++ " " ++ tok).
    rewrite (bearer_token_second_word scheme tok b H).
    rewrite (bearer_token_second_word "Bearer" tok b eq_refl).
    reflexivity.
  - intros Ht. rewrite (bearer_token_second_word scheme tok b H).
    rewrite (split_spaceless _ Ht). reflexivity.
Qed.

(** X2: a header made of a single word (no space in it) carries no token:
    the answer is 401 'No token' and nothing else happens. *)
Theorem one_word_header_rejected h b s :
  spaceless h = true ->
  task_route (mkRequest (Some h) b) s
  = (Sent (mkResponse 401 (error_body "No token")), s).
Proof.
  intros H. unfold task_route, bearer_token. cbn [authorization].
  rewrite (split_spaceless _ H). reflexivity.
Qed.

(** ** Statuses and effects *)

Lemma member_handleTask_calls m task s c s' :
  member_handleTask m task s = (c, s') ->
  (exists a, m = Registered a /\ handleTask a task s = (c, s')) \/
  (s' = s /\ c = Throw TypeError).
Proof.
  destruct m as [a|name|]; simpl; unfold throw; intros H.
  - left. eauto.
  - right. pair_inv. auto.
  - right. pair_inv. auto.
Qed.

(** X3: the single-task route answers every request with status 200, 400
    or 401; a 400 is sent without any effect; a 200 is sent only after a
    handler has run and returned, its value being the [result] of the
    body; and no request makes more than one handler invocation. *)
Theorem task_route_effects req s :
  exists r s',
    task_route req s = (Sent r, s') /\
    (status r = 200 \/ status r = 400 \/ status r = 401) /\
    (status r = 400 -> s' = s) /\
    (status r = 200 ->
     exists a task taskType result,
       handleTask a task s = (Normal result, s') /\
       json r = agent_result taskType result) /\
    (calls s' = calls s \/
     exists a task, calls s' = (calls s ++ [(a, task)])%list).
Proof.
  unfold task_route.
  destruct (bearer_token req) as [token|];
    [|eexists _, s; repeat split; auto; simpl; discriminate].
  destruct (token =? "");
    [eexists _, s; repeat split; auto; simpl; discriminate|].
  unfold task_try. run.
  destruct (verifyToken token) as [user|e];
    [|eexists _, s; repeat split; auto; simpl; discriminate].
  destruct (getProp (body req) "taskType") as [taskType|e];
    [|eexists _, s; repeat split; auto; simpl; discriminate].
  destruct (getProp (body req) "payload") as [payload|e];
    [|eexists _, s; repeat split; auto; simpl; discriminate].
  destruct (negb (truthy taskType) || negb (truthy payload));
    [eexists _, s; repeat split; auto; simpl; discriminate|].
  destruct (agents_index taskType) as [m|e];
    [|eexists _, s; repeat split; auto; simpl; discriminate].
  destruct (negb (member_truthy m));
    [eexists _, s; repeat split; auto; simpl; discriminate|].
  destruct (getProp user "id") as [userId|e];
    [|eexists _, s; repeat split; auto; simpl; discriminate].
  destruct (member_handleTask m _ s) as [c s'] eqn:Hm.
  destruct (member_handleTask_calls _ _ _ _ _ Hm) as [(a & -> & Hh)|(-> & ->)].
  - destruct c as [result|e]; eexists _, s'; (split; [reflexivity|]);
      simpl; repeat split; auto; try discriminate;
      try (right; eexists _, _; eapply handleTask_calls; eauto).
    intros _. eexists a, _, taskType, result. split; [exact Hh|reflexivity].
  - eexists _, s. repeat split; auto; simpl; discriminate.
Qed.

(** ** What the handlers depend on *)

Lemma local_agent_world a task s c s' :
  a <> researchAgent ->
  handleTask a task s = (c, s') ->
  world s' = world s.
Proof.
  intros Ha. unfold handleTask, record_call, bind.
  destruct a; [contradiction| |];
    unfold agent_body, plannerAgent_handleTask, executionAgent_handleTask;
    run; repeat (split_match; pair_inv; try discriminate);
    intros H; pair_inv; reflexivity.
Qed.

(** X4: the planner and the execution agent never touch the outside world,
    whether they return or throw; all they leave behind is the entry of
    their own invocation. *)
Theorem local_agents_leave_world a task s c s' :
  a <> researchAgent ->
  handleTask a task s = (c, s') ->
  s' = journalled a task s.
Proof.
  intros Ha Hh.
  pose proof (local_agent_world _ _ _ _ _ Ha Hh) as Hw.
  pose proof (handleTask_calls _ _ _ _ _ Hh) as Hc.
  destruct s' as [w cs]. simpl in Hw, Hc. subst. reflexivity.
Qed.

(** A handler reads nothing of its task but the payload. *)
Lemma agent_body_payload a t1 t2 s1 s2 :
  getProp t1 "payload" = getProp t2 "payload" ->
  world s1 = world s2 ->
  fst (agent_body a t1 s1) = fst (agent_body a t2 s2) /\
  world (snd (agent_body a t1 s1)) = world (snd (agent_body a t2 s2)).
Proof.
  intros Hp Hw. destruct a; unfold agent_body.
  - unfold researchAgent_handleTask. run. rewrite Hp.
    destruct (getProp t2 "payload") as [p|]; simpl; auto.
    destruct (getProp p "query") as [q|]; simpl; auto.
    destruct (toString q) as [qs|]; simpl; auto.
    destruct (encodeURIComponent qs) as [enc|]; simpl; auto.
    unfold http_get. rewrite Hw.
    destruct (axios_get _ (world s2)) as [[d|e] w]; simpl; auto.
    destruct (getProp d "extract"); simpl; auto.
  - unfold plannerAgent_handleTask. run. rewrite Hp.
    destruct (getProp t2 "payload") as [p|]; simpl; auto.
    destruct (getProp p "goal") as [g|]; simpl; auto.
    destruct (toString g); simpl; auto.
  - unfold executionAgent_handleTask. run. rewrite Hp.
    destruct (getProp t2 "payload") as [p|]; simpl; auto.
    destruct (getProp p "action") as [x|]; simpl; auto.
    destruct (getProp p "data") as [d|]; simpl; auto.
    repeat (destruct (is_string x _); simpl; auto).
Qed.

(** X5: an execution task cannot fail on the single-task route: once the
    token is accepted and both fields are there, the answer is a 200 whose
    body holds the agent's value, and the outside world is left alone. *)
Theorem execution_always_answers req user taskType payload userId s :
  authenticated req user ->
  body_fields req taskType payload ->
  truthy taskType = true -> truthy payload = true ->
  agents_index taskType = Normal (Registered executionAgent) ->
  getProp user "id" = Normal userId ->
  exists result,
    task_route req s
    = (Sent (mkResponse 200 (agent_result taskType result)),
       journalled executionAgent (bound_task userId taskType payload) s).
Proof.
  intros Ha Hb Ht Hp Hm Hu.
  destruct (getProp_truthy payload "action" Hp) as [action Hact].
  destruct (getProp_truthy payload "data" Hp) as [data Hd].
  rewrite (task_route_flow _ _ _ _ _ Ha Hb), Ht, Hp, Hm, Hu. simpl.
  rewrite (executionAgent_runs _ payload action data); trivial.
  eexists. reflexivity.
Qed.

(* ------------------------------------------------------------------ *)
(** * Further properties of the registry and of the batch route        *)
(* ------------------------------------------------------------------ *)

Lemma ownAgent_In tbl k a : ownAgent tbl k = Some a -> In (k, a) tbl.
Proof.
  induction tbl as [|[n b] tbl IH]; simpl; [discriminate|].
  destruct (n =? k) eqn:E.
  - apply String.eqb_eq in E. intros H. inversion H. subst. auto.
  - auto.
Qed.

Lemma ownAgent_None tbl k : ownAgent tbl k = None <-> ~ In k (map fst tbl).
Proof.
  induction tbl as [|[n b] tbl IH]; simpl.
  - split; auto.
  - destruct (n =? k) eqn:E.
    + apply String.eqb_eq in E. split; [discriminate|]. intros H. exfalso. auto.
    + apply String.eqb_neq in E. rewrite IH. split.
      * intros H [H1|H1]; auto.
      * intros H H1. auto.
Qed.

(** An agent object comes out of [agents] only under its own name. *)
Lemma agents_get_registered k a :
  agents_get k = Registered a -> In (k, a) agents.
Proof.
  unfold agents_get. destruct (ownAgent agents k) as [b|] eqn:E.
  - intros H. inversion H. subst. apply ownAgent_In. exact E.
  - destruct (existsb _ _); discriminate.
Qed.

Lemma agents_index_registered taskType a :
  agents_index taskType = Normal (Registered a) ->
  exists k, toString taskType = Normal k /\ In (k, a) agents.
Proof.
  unfold agents_index. destruct (toString taskType) as [k|e]; [|discriminate].
  intros H. inversion H. exists k. split; [reflexivity|].
  apply agents_get_registered. assumption.
Qed.

Lemma no_new_call (cs : list call) k : cs = (cs ++ [k])%list -> False.
Proof.
  intros H. apply (f_equal (@length call)) in H.
  rewrite length_app in H. simpl in H. lia.
Qed.

(** X6: a handler runs only for a registered name, and it is the handler
    registered under that name.  Whenever the single-task route or a turn
    of the batch loop adds an invocation to the journal, the taskType of
    the request prints as one of research, planner, execution, the agent
    invoked is the one [agents] lists under that name, and the task it was
    given is the bound task (single route) or the batch element itself; an
    inherited name, though it passes the guard, never makes a handler
    run. *)
Theorem dispatch_only_registered :
  (forall req s rep s' a task,
      task_route req s = (rep, s') ->
      calls s' = (calls s ++ [(a, task)])%list ->
      exists taskType payload userId k,
        body_fields req taskType payload /\
        toString taskType = Normal k /\
        In (k, a) agents /\
        task = bound_task userId taskType payload) /\
  (forall t s c s' a task,
      coordinate_step t s = (c, s') ->
      calls s' = (calls s ++ [(a, task)])%list ->
      exists taskType k,
        getProp t "taskType" = Normal taskType /\
        toString taskType = Normal k /\
        In (k, a) agents /\
        task = t).
Proof.
  split.
  - intros req s rep s' a task. unfold task_route.
    destruct (bearer_token req) as [token|];
      [|intros H Hc; pair_inv; destruct (no_new_call _ _ Hc)].
    destruct (token =? "");
      [intros H Hc; pair_inv; destruct (no_new_call _ _ Hc)|].
    unfold task_try. run.
    destruct (verifyToken token) as [user|e];
      [|intros H Hc; pair_inv; destruct (no_new_call _ _ Hc)].
    destruct (getProp (body req) "taskType") as [taskType|e] eqn:Ht;
      [|intros H Hc; pair_inv; destruct (no_new_call _ _ Hc)].
    destruct (getProp (body req) "payload") as [payload|e] eqn:Hp;
      [|intros H Hc; pair_inv; destruct (no_new_call _ _ Hc)].
    destruct (negb (truthy taskType) || negb (truthy payload));
      [intros H Hc; pair_inv; destruct (no_new_call _ _ Hc)|].
    destruct (agents_index taskType) as [m|e] eqn:Hm;
      [|intros H Hc; pair_inv; destruct (no_new_call _ _ Hc)].
    destruct (negb (member_truthy m));
      [intros H Hc; pair_inv; destruct (no_new_call _ _ Hc)|].
    destruct (getProp user "id") as [userId|e];
      [|intros H Hc; pair_inv; destruct (no_new_call _ _ Hc)].
    destruct (member_handleTask m _ s) as [c s1] eqn:Hh.
    intros H Hc.
    assert (Hs : s1 = s') by (destruct c; pair_inv; reflexivity).
    subst s1. clear H.
    destruct (member_handleTask_calls _ _ _ _ _ Hh) as [(a0 & -> & Hh0)|(-> & _)];
      [|destruct (no_new_call _ _ Hc)].
    apply handleTask_calls in Hh0. rewrite Hh0 in Hc.
    apply app_inv_head in Hc. inversion Hc; subst.
    destruct (agents_index_registered _ _ Hm) as (k & Hk & Hin).
    exists taskType, payload, userId, k. repeat split; assumption.
  - intros t s c s' a task. unfold coordinate_step. run.
    destruct (getProp t "taskType") as [taskType|e] eqn:Ht;
      [|intros H Hc; pair_inv; destruct (no_new_call _ _ Hc)].
    destruct (agents_index taskType) as [m|e] eqn:Hm;
      [|intros H Hc; pair_inv; destruct (no_new_call _ _ Hc)].
    destruct (negb (member_truthy m));
      [intros H Hc; pair_inv; destruct (no_new_call _ _ Hc)|].
    destruct (member_handleTask m t s) as [c1 s1] eqn:Hh.
    intros H Hc.
    assert (Hs : s1 = s') by (destruct c1; pair_inv; reflexivity).
    subst s1. clear H.
    destruct (member_handleTask_calls _ _ _ _ _ Hh) as [(a0 & -> & Hh0)|(-> & _)];
      [|destruct (no_new_call _ _ Hc)].
    apply handleTask_calls in Hh0. rewrite Hh0 in Hc.
    apply app_inv_head in Hc. inversion Hc; subst.
    destruct (agents_index_registered _ _ Hm) as (k & Hk & Hin).
    exists taskType, k. repeat split; assumption.
Qed.

(** X7: the batch route rejects up front whatever is not an array in
    [tasks] (an absent field included): the answer is 400 'Tasks must be
    array' and no handler runs. *)
Theorem tasks_must_be_array req tasks s :
  getProp (body req) "tasks" = Normal tasks ->
  (forall l, tasks <> VArr l) ->
  coordinate_route req s
  = (Sent (mkResponse 400 (error_body "Tasks must be array")), s).
Proof.
  intros Hb Hn. unfold coordinate_route. rewrite Hb.
  destruct tasks as [| | | | |elems|]; try reflexivity.
  exfalso. exact (Hn elems eq_refl).
Qed.

(** X8: a batch all of whose tasks name no agent is answered 200 with one
    unknown-agent outcome per task, in order, and changes nothing: the
    errors are data in the body, never a status. *)
Theorem unknown_batch_closed_form req tasks taskTypes s :
  getProp (body req) "tasks" = Normal (VArr tasks) ->
  Forall2 (fun t taskType =>
             getProp t "taskType" = Normal taskType /\
             unknown_to_agents taskType)
          tasks taskTypes ->
  coordinate_route req s
  = (Sent (mkResponse 200 (results_body (map unknown_agent taskTypes))), s).
Proof.
  intros Hb Hall. apply (coordinate_route_steps req tasks s _ s Hb).
  clear Hb. induction Hall as [|t taskType tasks taskTypes [Ht Hu] _ IH]; simpl.
  - constructor.
  - econstructor; [apply step_unknown; eassumption|exact IH].
Qed.

(** A turn for a task that does not reach the research agent leaves the
    outside world as it was. *)
Lemma offline_step t s c s' :
  offline t -> coordinate_step t s = (c, s') -> world s' = world s.
Proof.
  intros Hoff. unfold coordinate_step. run.
  destruct (getProp t "taskType") as [taskType|e] eqn:Ht;
    [|intros H; pair_inv; reflexivity].
  specialize (Hoff _ Ht).
  destruct (agents_index taskType) as [[a|name|]|e]; simpl;
    try (intros H; pair_inv; reflexivity).
  destruct (handleTask a t s) as [[r|e] s1] eqn:Hh; intros H; pair_inv;
    (eapply local_agent_world; [|exact Hh]); congruence.
Qed.

Lemma offline_loop tasks : forall results s c s',
  Forall offline tasks ->
  coordinate_loop tasks results s = (c, s') -> world s' = world s.
Proof.
  induction tasks as [|t rest IH]; intros results s c s' Hall H;
    simpl in H; run.
  - pair_inv. reflexivity.
  - inversion Hall as [|? ? Ht Hrest]; subst.
    destruct (coordinate_step t s) as [[o|e] s1] eqn:Hs.
    + rewrite (IH _ _ _ _ Hrest H). eapply offline_step; eauto.
    + pair_inv. eapply offline_step; eauto.
Qed.

(** X9: a batch without research tasks never reaches the network: however
    it ends, the outside world is the one it started in. *)
Theorem offline_batch_leaves_world req tasks s :
  getProp (body req) "tasks" = Normal (VArr tasks) ->
  Forall offline tasks ->
  world (snd (coordinate_route req s)) = world s.
Proof.
  intros Hb Hall. unfold coordinate_route. rewrite Hb.
  destruct (coordinate_loop tasks [] s) as [[rs|e] s'] eqn:Hl; simpl;
    eapply offline_loop; eauto.
Qed.

Lemma harmless_step t s :
  harmless t -> exists o s', coordinate_step t s = (Normal o, s').
Proof.
  intros (taskType & Ht & [Hu|(Hm & payload & x & Hp & Hx)]).
  - eexists _, _. apply step_unknown; eassumption.
  - rewrite (step_registered _ _ _ _ Ht Hm).
    assert (Hd : exists d, getProp payload "data" = Normal d).
    { destruct payload; simpl in *; try discriminate; eauto. }
    destruct Hd as [d Hd].
    rewrite (executionAgent_runs _ _ _ _ _ Hp Hx Hd). eauto.
Qed.

Lemma harmless_no_throw tasks : forall s,
  Forall harmless tasks -> no_task_throws tasks s.
Proof.
  induction tasks as [|t rest IH]; intros s Hall; simpl; [exact I|].
  inversion Hall as [|? ? Ht Hrest]; subst.
  destruct (harmless_step t s Ht) as (o & s1 & Hs). eauto.
Qed.

Lemma harmless_offline t : harmless t -> offline t.
Proof.
  intros (taskType & Ht & H) taskType' Ht'.
  rewrite Ht in Ht'. inversion Ht'; subst taskType'.
  destruct H as [Hu|(Hm & _)]; [red in Hu|]; congruence.
Qed.

(** X10: a batch made only of tasks that name no agent and of execution
    tasks that carry a payload always completes: whatever the actions and
    the state, the answer is a 200 with as many outcomes as tasks, and the
    outside world is untouched. *)
Theorem harmless_batch_completes req tasks s :
  getProp (body req) "tasks" = Normal (VArr tasks) ->
  Forall harmless tasks ->
  exists results s',
    coordinate_route req s
    = (Sent (mkResponse 200 (results_body results)), s') /\
    length results = length tasks /\
    world s' = world s.
Proof.
  intros Hb Hall.
  destruct (no_task_throws_steps _ _ (harmless_no_throw tasks s Hall))
    as (outs & s' & Hs).
  exists outs, s'.
  pose proof (coordinate_route_steps _ _ _ _ _ Hb Hs) as Hr.
  split; [exact Hr|]. split; [eauto using steps_length|].
  eapply (offline_loop tasks []); [|apply (steps_loop _ _ _ _ Hs)].
  eapply Forall_impl; [|exact Hall]. apply harmless_offline.
Qed.

(** X11: the batch stops at the first turn that throws, whatever throws in
    it (a handler, a [null] element, an unprintable taskType): the route
    sends nothing, the handlers of the earlier tasks have run and stay
    run, and no later task is looked at. *)
Theorem batch_stops_at_first_throw req pre t post s outs s1 e s2 :
  getProp (body req) "tasks" = Normal (VArr (pre ++ t :: post)) ->
  steps pre s outs s1 ->
  coordinate_step t s1 = (Throw e, s2) ->
  coordinate_route req s = (Unhandled e, s2) /\
  exists cs,
    calls s2 = (calls s ++ cs)%list /\
    Forall (fun k : call => In (snd k) (pre ++ [t])) cs.
Proof.
  intros Hb Hpre Ht. split.
  - unfold coordinate_route. rewrite Hb.
    erewrite loop_throw; [reflexivity|apply (steps_loop _ _ _ _ Hpre)|exact Ht].
  - eapply (loop_calls (pre ++ [t]) []).
    eapply loop_throw; [apply (steps_loop _ _ _ _ Hpre)|exact Ht].
Qed.

(** X12: the batch route asks for no credential, and the handlers read
    nothing of a task but its payload: whatever the single-task route
    answers with a 200 to an authenticated request, the batch route gives
    as its one outcome to the same body sent with any Authorization header
    or none, with the same effect on the outside world. *)
Theorem batch_needs_no_token req user taskType payload a userId result s s' auth :
  authenticated req user ->
  body_fields req taskType payload ->
  truthy taskType = true -> truthy payload = true ->
  agents_index taskType = Normal (Registered a) ->
  getProp user "id" = Normal userId ->
  task_route req s = (Sent (mkResponse 200 (agent_result taskType result)), s') ->
  exists s'',
    coordinate_route (mkRequest auth (VObj [("tasks", VArr [body req])])) s
    = (Sent (mkResponse 200 (results_body [agent_result taskType result])), s'')
    /\ world s'' = world s'.
Proof.
  intros Ha [Ht Hp] Htt Htp Hm Hu Hr.
  rewrite (task_route_flow _ _ _ _ _ Ha (conj Ht Hp)), Htt, Htp, Hm, Hu in Hr.
  simpl in Hr.
  destruct (handleTask a (bound_task userId taskType payload) s)
    as [[r|e] s1] eqn:Hh; [|discriminate].
  inversion Hr; subst r s1. clear Hr.
  unfold handleTask, record_call, bind in Hh.
  pose proof (agent_body_payload a (body req)
                (bound_task userId taskType payload)
                (journalled a (body req) s)
                (journalled a (bound_task userId taskType payload) s)
                Hp eq_refl) as [Hfst Hworld].
  unfold journalled in Hfst, Hworld. rewrite Hh in Hfst, Hworld.
  simpl in Hfst, Hworld.
  unfold coordinate_route. simpl. run.
  rewrite (step_registered _ _ _ _ Ht Hm).
  unfold handleTask, record_call, bind.
  destruct (agent_body a (body req) _) as [c s2] eqn:Hb.
  simpl in Hfst, Hworld. subst c. eexists. split; [reflexivity|exact Hworld].
Qed.

(* ------------------------------------------------------------------ *)
(** * The agents on incomplete payloads                                *)
(* ------------------------------------------------------------------ *)

(** X13: neither agent checks that its field is there.  A planner task
    whose payload has no goal still succeeds, its first step reading
    'Define the goal: undefined'; a research task whose payload has no
    query looks up the page named [undefined]. *)
Theorem missing_field_reads_undefined task props s :
  getProp task "payload" = Normal (VObj props) ->
  (ownProperty props "goal" = None ->
   handleTask plannerAgent task s
   = (Normal (VObj [("steps",
                     VArr [VStr "Define the goal: undefined";
                           VStr "Research requirements";
                           VStr "List resources";
                           VStr "Create timeline";
                           VStr "Assign tasks"])]),
      journalled plannerAgent task s)) /\
  (ownProperty props "query" = None ->
   forall enc data w,
     encodeURIComponent "undefined" = Normal enc ->
     axios_get ("https://en.wikipedia.org/api/rest_v1/page/summary/" ++ enc)
               (world s) = (Normal data, w) ->
     forall extract,
       getProp data "extract" = Normal extract ->
       handleTask researchAgent task s
       = (Normal (VObj [("summary", extract)]),
          mkState w (calls s ++ [(researchAgent, task)]))).
Proof.
  intros Hp. split.
  - intros Hg. unfold handleTask, record_call, agent_body,
      plannerAgent_handleTask. run. rewrite Hp. simpl. rewrite Hg.
    reflexivity.
  - intros Hq enc data w He Hx extract Hd.
    unfold handleTask, record_call, agent_body, researchAgent_handleTask,
      http_get. run. rewrite Hp. simpl. rewrite Hq. simpl. rewrite He.
    simpl in Hx. rewrite Hx, Hd. reflexivity.
Qed.

(* ------------------------------------------------------------------ *)
(** * The registration and login routes                                *)
(* ------------------------------------------------------------------ *)

(** X14: registration with a missing (or falsy) username or password is
    answered 400 'Missing fields' before the store is consulted: nothing
    is looked up, hashed or saved. *)
Theorem register_missing_fields req username password s :
  getProp (body req) "username" = Normal username ->
  getProp (body req) "password" = Normal password ->
  truthy username = false \/ truthy password = false ->
  register_route req s = (Sent missing_fields, s).
Proof.
  intros Hu Hp H. unfold register_route, uncaught, register_body. run.
  rewrite Hu, Hp.
  destruct H as [-> | ->]; simpl; [|rewrite orb_true_r]; reflexivity.
Qed.

(** X15: registration under a username the store already holds is answered
    400 'User exists' right after the lookup: the state is the one the
    lookup left, so no password is hashed, no document built or saved and
    no token signed. *)
Theorem register_existing_user req username password existing w s :
  getProp (body req) "username" = Normal username ->
  getProp (body req) "password" = Normal password ->
  truthy username = true -> truthy password = true ->
  User_findOne (VObj [("username", username)]) (world s) = (Normal existing, w) ->
  truthy existing = true ->
  register_route req s
  = (Sent (mkResponse 400 (error_body "User exists")), mkState w (calls s)).
Proof.
  intros Hu Hp Htu Htp Hf He.
  unfold register_route, uncaught, register_body, io. run.
  rewrite Hu, Hp, Htu, Htp. simpl. rewrite Hf, He. reflexivity.
Qed.

(** X16: registration answers 200 only with a body [{ token }], and only
    after the whole chain has run: the lookup found nobody, the password
    went through [bcrypt.hash] with 10 rounds, the document built from the
    username and that hash (never the password itself) was saved, and the
    token was signed for that document's [_id] and the username. *)
Theorem register_success_chain req s r s' :
  register_route req s = (Sent r, s') ->
  status r = 200 ->
  exists username password existing hash user id token w1 w2 w3 w4,
    getProp (body req) "username" = Normal username /\
    getProp (body req) "password" = Normal password /\
    User_findOne (VObj [("username", username)]) (world s)
      = (Normal existing, w1) /\
    truthy existing = false /\
    bcrypt_hash password 10 w1 = (Normal hash, w2) /\
    User_new (VObj [("username", username); ("password", hash)]) w2
      = (Normal user, w3) /\
    User_save user w3 = (Normal tt, w4) /\
    getProp user "_id" = Normal id /\
    signToken (VObj [("id", id); ("username", username)]) w4
      = (Normal token, world s') /\
    json r = token_body token /\
    calls s' = calls s.
Proof.
  unfold register_route, uncaught, register_body, io. run.
  destruct (getProp (body req) "username") as [username|]; [|stop].
  destruct (getProp (body req) "password") as [password|]; [|stop].
  destruct (negb (truthy username) || negb (truthy password)); [stop|].
  destruct (User_findOne _ (world s)) as [[existing|] w1] eqn:Hf; [|stop].
  simpl. destruct (truthy existing) eqn:He; [stop|].
  simpl. destruct (bcrypt_hash password 10 w1) as [[hash|] w2] eqn:Hh; [|stop].
  simpl. destruct (User_new _ w2) as [[user|] w3] eqn:Hn; [|stop].
  simpl. destruct (User_save user w3) as [[[]|] w4] eqn:Hs; [|stop].
  simpl. destruct (getProp user "_id") as [id|] eqn:Hi; [|stop].
  destruct (signToken _ w4) as [[token|] w5] eqn:Ht; [|stop].
  simpl. intros H _. inversion H; subst. simpl.
  exists username, password, existing, hash, user, id, token, w1, w2, w3, w4.
  repeat split; auto.
Qed.

(** X17: the login route gives the same answer, 400 'Invalid credentials',
    to a username the store does not know and to a wrong password. *)
Theorem login_failures_alike reqA reqB sA sB usernameA usernameB password
        nobody user stored wA wB :
  getProp (body reqA) "username" = Normal usernameA ->
  User_findOne (VObj [("username", usernameA)]) (world sA) = (Normal nobody, wA) ->
  truthy nobody = false ->
  getProp (body reqB) "username" = Normal usernameB ->
  getProp (body reqB) "password" = Normal password ->
  User_findOne (VObj [("username", usernameB)]) (world sB) = (Normal user, wB) ->
  truthy user = true ->
  getProp user "password" = Normal stored ->
  bcrypt_compare password stored = Normal false ->
  fst (login_route reqA sA)
  = Sent (mkResponse 400 (error_body "Invalid credentials")) /\
  fst (login_route reqB sB) = fst (login_route reqA sA).
Proof.
  intros HuA HfA HnA HuB HpB HfB HtB Hs Hc.
  assert (HA : fst (login_route reqA sA)
               = Sent (mkResponse 400 (error_body "Invalid credentials"))).
  { unfold login_route, uncaught, login_body, io. run. rewrite HuA.
    assert (Hp : exists p, getProp (body reqA) "password" = Normal p).
    { destruct (body reqA); simpl in *; try discriminate; eauto. }
    destruct Hp as [p ->]. rewrite HfA. simpl. rewrite HnA. reflexivity. }
  split; [exact HA|]. rewrite HA.
  unfold login_route, uncaught, login_body, io. run.
  rewrite HuB, HpB, HfB. simpl. rewrite HtB. simpl. rewrite Hs, Hc.
  reflexivity.
Qed.

(** X18: the login route issues a token only when the store returned a
    user and [bcrypt.compare] said yes for the password sent against the
    password stored; the token is signed for that user's [_id]. *)
Theorem login_token_needs_match req s r s' :
  login_route req s = (Sent r, s') ->
  status r = 200 ->
  exists username password user stored id token w,
    getProp (body req) "username" = Normal username /\
    getProp (body req) "password" = Normal password /\
    User_findOne (VObj [("username", username)]) (world s) = (Normal user, w) /\
    truthy user = true /\
    getProp user "password" = Normal stored /\
    bcrypt_compare password stored = Normal true /\
    getProp user "_id" = Normal id /\
    signToken (VObj [("id", id); ("username", username)]) w
      = (Normal token, world s') /\
    json r = token_body token.
Proof.
  unfold login_route, uncaught, login_body, io. run.
  destruct (getProp (body req) "username") as [username|]; [|stop].
  destruct (getProp (body req) "password") as [password|]; [|stop].
  destruct (User_findOne _ (world s)) as [[user|] w] eqn:Hf; [|stop].
  simpl. destruct (truthy user) eqn:Hu; simpl; [|stop].
  simpl. destruct (getProp user "password") as [stored|] eqn:Hs; [|stop].
  destruct (bcrypt_compare password stored) as [[|]|] eqn:Hc; simpl;
    [|stop|stop].
  destruct (getProp user "_id") as [id|] eqn:Hi; [|stop].
  destruct (signToken _ w) as [[token|] w'] eqn:Ht; [|stop].
  simpl. intros H _. inversion H; subst. simpl.
  exists username, password, user, stored, id, token, w.
  repeat split; auto.
Qed.

(** X19: neither route of auth.ts catches anything: when the store lookup
    rejects, the login route, and the registration route once past its
    field check, send no response at all. *)
Theorem auth_routes_uncaught req username e w s :
  getProp (body req) "username" = Normal username ->
  User_findOne (VObj [("username", username)]) (world s) = (Throw e, w) ->
  login_route req s = (Unhandled e, mkState w (calls s)) /\
  (forall password,
      getProp (body req) "password" = Normal password ->
      truthy username = true -> truthy password = true ->
      register_route req s = (Unhandled e, mkState w (calls s))) /\
  (forall r s',
      login_route req s <> (Sent r, s')).
Proof.
  intros Hu Hf.
  assert (Hp : exists p, getProp (body req) "password" = Normal p).
  { destruct (body req); simpl in *; try discriminate; eauto. }
  destruct Hp as [p Hp].
  assert (HL : login_route req s = (Unhandled e, mkState w (calls s))).
  { unfold login_route, uncaught, login_body, io. run.
    rewrite Hu, Hp, Hf. reflexivity. }
  split; [exact HL|]. split.
  - intros password Hp' Htu Htp.
    unfold register_route, uncaught, register_body, io. run.
    rewrite Hu, Hp', Htu, Htp. simpl. rewrite Hf. reflexivity.
  - intros r s'. rewrite HL. discriminate.
Qed.

(* ------------------------------------------------------------------ *)
(** * The forms against the routes                                     *)
(* ------------------------------------------------------------------ *)

Lemma dashboard_request_inv tok agent input req :
  AgentDashboard_request (Some tok) agent input = Some req ->
  tok <> "" /\
  req = mkRequest (Some ("Bearer" ++ " " ++ tok))
          (VObj [("taskType", VStr agent);
                 ("payload", AgentDashboard_payload agent input)]).
Proof.
  unfold AgentDashboard_request. destruct (tok =? "") eqn:E; [discriminate|].
  apply String.eqb_neq in E. intros H. inversion H. split; [exact E|reflexivity].
Qed.

Lemma dashboard_payload_truthy agent input :
  truthy (AgentDashboard_payload agent input) = true.
Proof.
  unfold AgentDashboard_payload.
  destruct (agent =? "execution"); [reflexivity|].
  destruct (agent =? "planner"); [reflexivity|].
  destruct (agent =? "research"); reflexivity.
Qed.

Lemma dashboard_request_accepted tok agent input req user :
  AgentDashboard_request (Some tok) agent input = Some req ->
  spaceless tok = true ->
  verifyToken tok = Normal user ->
  authenticated req user /\
  body_fields req (VStr agent) (AgentDashboard_payload agent input).
Proof.
  intros Hreq Hs Hv. destruct (dashboard_request_inv _ _ _ _ Hreq) as [Hne ->].
  split.
  - exists tok. split; [|split; assumption].
    rewrite (bearer_token_second_word "Bearer" tok _ eq_refl).
    rewrite (split_spaceless _ Hs). reflexivity.
  - split; reflexivity.
Qed.

(** X20: the header the dashboard builds and the parsing of the route
    agree on tokens without a space: the route reads back the very token
    the browser stored.  Of a token with a space in it the route sees only
    the word before the first space. *)
Theorem dashboard_token_round_trip tok agent input req :
  AgentDashboard_request (Some tok) agent input = Some req ->
  (spaceless tok = true -> bearer_token req = Some tok) /\
  (forall first rest,
      tok = first ++ " " ++ rest -> spaceless first = true -> first <> "" ->
      bearer_token req = Some first).
Proof.
  intros Hreq. destruct (dashboard_request_inv _ _ _ _ Hreq) as [Hne ->].
  rewrite (bearer_token_second_word "Bearer" tok _ eq_refl).
  split.
  - intros Hs. rewrite (split_spaceless _ Hs). reflexivity.
  - intros first rest -> Hs _. rewrite (split_word _ _ Hs). reflexivity.
Qed.

(** X21: a request built by the dashboard for one of the three agents of
    its menu, with a token the server accepts, is never rejected as
    malformed: the answer is not a 400, neither 'Missing fields' nor
    'Unknown agent'. *)
Theorem dashboard_request_well_formed tok agent input req user s :
  AgentDashboard_request (Some tok) agent input = Some req ->
  spaceless tok = true ->
  verifyToken tok = Normal user ->
  In agent (map fst agents) ->
  exists r s', task_route req s = (Sent r, s') /\ status r <> 400.
Proof.
  intros Hreq Hs Hv Hin.
  destruct (dashboard_request_accepted _ _ _ _ _ Hreq Hs Hv) as [Ha Hb].
  rewrite (task_route_flow _ _ _ _ _ Ha Hb), dashboard_payload_truthy.
  assert (Hm : exists a, truthy (VStr agent) = true /\
                         agents_index (VStr agent) = Normal (Registered a)).
  { simpl in Hin. destruct Hin as [<-|[<-|[<-|[]]]]; eexists; split; reflexivity. }
  destruct Hm as (a & -> & ->). simpl.
  destruct (getProp user "id") as [userId|e];
    [|eexists _, _; split; [reflexivity|simpl; discriminate]].
  destruct (handleTask a _ s) as [[r|e] s'];
    eexists _, _; (split; [reflexivity|simpl; discriminate]).
Qed.

(** X22: end to end, the execution entry of the dashboard always works:
    with an accepted token, whatever the input, the server answers and the
    component shows [{ status: 'created', data: input }] and no error,
    without the server reaching the outside world. *)
Theorem dashboard_shows_created tok input req user userId s :
  AgentDashboard_request (Some tok) "execution" input = Some req ->
  spaceless tok = true ->
  verifyToken tok = Normal user ->
  getProp user "id" = Normal userId ->
  exists r s',
    task_route req s = (Sent r, s') /\
    AgentDashboard_receive r
    = mkView (VObj [("status", VStr "created"); ("data", VStr input)])
             (VStr "") /\
    world s' = world s.
Proof.
  intros Hreq Hs Hv Hu.
  destruct (dashboard_request_accepted _ _ _ _ _ Hreq Hs Hv) as [Ha Hb].
  rewrite (task_route_flow _ _ _ _ _ Ha Hb), Hu. simpl.
  eexists _, _. split; [reflexivity|]. split; reflexivity.
Qed.

(** X23: end to end, the planner entry of the dashboard shows the five
    steps, the first one quoting the input as typed. *)
Theorem dashboard_shows_steps tok input req user userId s :
  AgentDashboard_request (Some tok) "planner" input = Some req ->
  spaceless tok = true ->
  verifyToken tok = Normal user ->
  getProp user "id" = Normal userId ->
  exists r s',
    task_route req s = (Sent r, s') /\
    AgentDashboard_receive r
    = mkView (VObj [("steps",
                     VArr [VStr ("Define the goal: " ++ input);
                           VStr "Research requirements";
                           VStr "List resources";
                           VStr "Create timeline";
                           VStr "Assign tasks"])])
             (VStr "").
Proof.
  intros Hreq Hs Hv Hu.
  destruct (dashboard_request_accepted _ _ _ _ _ Hreq Hs Hv) as [Ha Hb].
  rewrite (task_route_flow _ _ _ _ _ Ha Hb), Hu. simpl.
  eexists _, _. split; reflexivity.
Qed.

(** X24: the dashboard cannot tell a failed lookup from a rejected token:
    when the token is refused, and equally when the token is fine but the
    Wikipedia request of the research agent is rejected, the component
    shows the error 'Invalid token'. *)
Theorem dashboard_blames_token tok input req s :
  AgentDashboard_request (Some tok) "research" input = Some req ->
  spaceless tok = true ->
  (exists e, verifyToken tok = Throw e) \/
  (exists user userId enc e w,
      verifyToken tok = Normal user /\
      getProp user "id" = Normal userId /\
      encodeURIComponent input = Normal enc /\
      axios_get ("https://en.wikipedia.org/api/rest_v1/page/summary/" ++ enc)
                (world s) = (Throw e, w)) ->
  exists r s',
    task_route req s = (Sent r, s') /\
    AgentDashboard_receive r = mkView VNull (VStr "Invalid token").
Proof.
  intros Hreq Hs [[e Hv]|(user & userId & enc & e & w & Hv & Hu & He & Hx)].
  - destruct (dashboard_request_inv _ _ _ _ Hreq) as [Hne ->].
    unfold task_route.
    rewrite (bearer_token_second_word "Bearer" tok _ eq_refl).
    rewrite (split_spaceless _ Hs). simpl.
    apply String.eqb_neq in Hne. rewrite Hne.
    unfold task_try. run. rewrite Hv.
    eexists _, _. split; reflexivity.
  - destruct (dashboard_request_accepted _ _ _ _ _ Hreq Hs Hv) as [Ha Hb].
    rewrite (task_route_flow _ _ _ _ _ Ha Hb), Hu. simpl.
    unfold handleTask, record_call, agent_body, researchAgent_handleTask,
      http_get. run. rewrite He. simpl in Hx. rewrite Hx.
    eexists _, _. split; reflexivity.
Qed.

(** X25: when the page Wikipedia returns has no extract, the summary is
    [undefined], it is lost in the JSON body, and the dashboard shows an
    empty object with no error. *)
Theorem dashboard_shows_empty_summary tok input req user userId enc data w s :
  AgentDashboard_request (Some tok) "research" input = Some req ->
  spaceless tok = true ->
  verifyToken tok = Normal user ->
  getProp user "id" = Normal userId ->
  encodeURIComponent input = Normal enc ->
  axios_get ("https://en.wikipedia.org/api/rest_v1/page/summary/" ++ enc)
            (world s) = (Normal data, w) ->
  getProp data "extract" = Normal VUndefined ->
  exists r s',
    task_route req s = (Sent r, s') /\
    status r = 200 /\
    AgentDashboard_receive r = mkView (VObj []) (VStr "").
Proof.
  intros Hreq Hs Hv Hu He Hx Hd.
  destruct (dashboard_request_accepted _ _ _ _ _ Hreq Hs Hv) as [Ha Hb].
  rewrite (task_route_flow _ _ _ _ _ Ha Hb), Hu. simpl.
  unfold handleTask, record_call, agent_body, researchAgent_handleTask,
    http_get. run. rewrite He. simpl in Hx. rewrite Hx, Hd.
  eexists _, _. split; [reflexivity|]. split; reflexivity.
Qed.

(** X26: whenever the login route refuses the credentials typed in the
    login form, the form shows 'Invalid credentials', keeps whatever token
    the browser held and stays on the page; when it accepts them with a
    string token, that token is stored and the dashboard opened. *)
Theorem login_form_outcomes username password before s r s' :
  login_route (LoginForm_request username password) s = (Sent r, s') ->
  (status r = 200 /\
   exists token,
     json r = token_body token /\
     forall t, token = VStr t ->
               LoginForm_receive before r = mkLoginView (Some t) (VStr "") true)
  \/
  (status r = 400 /\
   LoginForm_receive before r
   = mkLoginView before (VStr "Invalid credentials") false).
Proof.
  unfold login_route, uncaught, login_body, io. run.
  destruct (User_findOne _ (world s)) as [[user|] w] eqn:Hf; [|discriminate].
  simpl. destruct (truthy user) eqn:Hu; simpl;
    [|intros H; inversion H; subst; right; split; reflexivity].
  destruct (getProp user "password") as [stored|] eqn:Hs; [|discriminate].
  destruct (bcrypt_compare (VStr password) stored) as [[|]|] eqn:Hc; simpl;
    [|intros H; inversion H; subst; right; split; reflexivity|discriminate].
  destruct (getProp user "_id") as [id|] eqn:Hi; [|discriminate].
  destruct (signToken _ w) as [[token|] w'] eqn:Ht; [|discriminate].
  simpl. intros H. inversion H; subst. left. split; [reflexivity|].
  exists token. split; [reflexivity|]. intros t ->. reflexivity.
Qed.
End Gateway.




(* ------------------------------------------------------------------ *)
(** * The code on concrete requests                                    *)
(* ------------------------------------------------------------------ *)

Local Notation "'task_route!'" :=
  (task_route Stub.W Stub.verifyToken Stub.encodeURIComponent Stub.axios_get).
Local Notation "'coordinate_route!'" :=
  (coordinate_route Stub.W Stub.encodeURIComponent Stub.axios_get).
Local Notation "'coordinate_step!'" :=
  (coordinate_step Stub.W Stub.encodeURIComponent Stub.axios_get).
Local Notation "'handleTask!'" :=
  (handleTask Stub.W Stub.encodeURIComponent Stub.axios_get).

Example agents_research : agents_get "research" = Registered researchAgent.
Proof. reflexivity. Qed.

Example agents_ghost : agents_get "ghost" = NotFound.
Proof. reflexivity. Qed.

Example agents_constructor : agents_get "constructor" = Inherited "constructor".
Proof. reflexivity. Qed.

(** An array holding one string indexes [agents] like the string itself. *)
Example agents_index_array :
  agents_index (VArr [VStr "planner"]) = Normal (Registered plannerAgent).
Proof. reflexivity. Qed.

(** An absent and an empty taskType both index nothing. *)
Example agents_index_absent : agents_index VUndefined = Normal NotFound.
Proof. reflexivity. Qed.

Example agents_index_empty : agents_index (VStr "") = Normal NotFound.
Proof. reflexivity. Qed.

Example toString_array :
  toString (VArr [VStr "a"; VNull; VNum 12; VArr [VBool true]])
  = Normal "a,,12,true".
Proof. reflexivity. Qed.

Example toString_own_toString :
  toString (VObj [("toString", VNum 1)]) = Normal "x" -> False.
Proof. discriminate. Qed.

Example split_bearer : split "Bearer abc" = ["Bearer"; "abc"].
Proof. reflexivity. Qed.

Example split_no_token : nth_error (split "Bearer") 1 = None.
Proof. reflexivity. Qed.

(** The whole route on a research task about a page the stub network
    knows. *)
Example research_roundtrip :
  task_route! (Stub.authorized (Stub.task "research" (VObj [("query", VStr "Rocq")])))
              Stub.s0
  = (Sent (mkResponse 200
             (VObj [("agent", VStr "research");
                    ("result",
                     VObj [("summary", VStr "Rocq is a proof assistant.")])])),
     mkState
       ["https://en.wikipedia.org/api/rest_v1/page/summary/Rocq"]
       [(researchAgent,
         VObj [("userId", VStr "u1"); ("taskType", VStr "research");
               ("payload", VObj [("query", VStr "Rocq")])])]).
Proof. reflexivity. Qed.

Example planner_steps :
  fst (handleTask! plannerAgent (Stub.task "planner" (VObj [("goal", VStr "ship")]))
                   Stub.s0)
  = Normal (VObj [("steps",
                   VArr [VStr "Define the goal: ship";
                         VStr "Research requirements";
                         VStr "List resources";
                         VStr "Create timeline";
                         VStr "Assign tasks"])]).
Proof. reflexivity. Qed.

(** A batch element without taskType or payload is not rejected by any
    validation: it gets an unknown-agent outcome whose agent is
    [undefined]. *)
Example batch_skips_validation :
  coordinate_route! (Stub.anonymous (Stub.batch [VObj []; Stub.task "" VNull]))
                    Stub.s0
  = (Sent (mkResponse 200
             (results_body [unknown_agent VUndefined;
                            unknown_agent (VStr "")])),
     Stub.s0).
Proof. reflexivity. Qed.

(** A registered batch element is handed to its handler whatever its
    payload: here it has none, and the handler is entered all the same. *)
Example batch_payload_unchecked :
  calls (snd (coordinate_step! Stub.planner_no_payload Stub.s0))
  = [(plannerAgent, Stub.planner_no_payload)].
Proof. reflexivity. Qed.

(* ------------------------------------------------------------------ *)
(** * Where the code departs from the stated behaviour                 *)
(* ------------------------------------------------------------------ *)

(** C1 fails as stated: in this batch of two tasks the second one, a planner
    task sent without payload, throws inside its handler, and the route
    returns no outcomes at all, let alone two. *)
Lemma C1_failing_task_aborts_batch :
  ~ exists results s',
      coordinate_route!
        (Stub.anonymous (Stub.batch [Stub.create_task; Stub.planner_no_payload]))
        Stub.s0
      = (Sent (mkResponse 200 (results_body results)), s') /\
      length results = 2.
Proof. intros (results & s' & H & _). vm_compute in H. discriminate. Qed.

(** C2 fails as stated: the planner handler throws on a task without
    payload, and on the batch route the failure leaves the route as it is:
    no response, hence no outcome carrying a handler error. *)
Lemma C2_handler_failure_escapes_batch :
  handleTask! plannerAgent Stub.planner_no_payload Stub.s0
  = (Throw TypeError, journalled Stub.W plannerAgent Stub.planner_no_payload Stub.s0) /\
  coordinate_route! (Stub.anonymous (Stub.batch [Stub.planner_no_payload])) Stub.s0
  = (Unhandled TypeError,
     journalled Stub.W plannerAgent Stub.planner_no_payload Stub.s0) /\
  forall r s',
    coordinate_route! (Stub.anonymous (Stub.batch [Stub.planner_no_payload])) Stub.s0
    <> (Sent r, s').
Proof. repeat split. intros r s' H. vm_compute in H. discriminate. Qed.

(** C3 fails as stated: the first task names no agent, but the failure of
    the second one takes the whole batch with it, and no unknown-agent
    outcome is reported at index 0. *)
Lemma C3_unknown_outcome_lost :
  ~ exists results s',
      coordinate_route!
        (Stub.anonymous (Stub.batch [Stub.ghost_task; Stub.planner_no_payload]))
        Stub.s0
      = (Sent (mkResponse 200 (results_body results)), s') /\
      nth_error results 0 = Some (unknown_agent (VStr "ghost")).
Proof. intros (results & s' & H & _). vm_compute in H. discriminate. Qed.

(** C4 fails as stated: an authenticated task for the unregistered agent
    [ghost] is answered with status 400, not a success, and the body is
    [{ error: 'Unknown agent' }], with no agent field. *)
Lemma C4_unknown_agent_is_a_400 :
  task_route! (Stub.authorized Stub.ghost_task) Stub.s0
  = (Sent (mkResponse 400 (error_body "Unknown agent")), Stub.s0) /\
  ~ exists r s',
      task_route! (Stub.authorized Stub.ghost_task) Stub.s0 = (Sent r, s') /\
      (status r = 200 \/ json r = unknown_agent (VStr "ghost")).
Proof.
  split; [reflexivity|].
  intros (r & s' & H & Hr). vm_compute in H. inversion H; subst r.
  destruct Hr as [Hr|Hr]; discriminate.
Qed.

(** C6 fails as stated: a body missing both fields gets the very response a
    body missing only its payload gets, so what is reported for the former
    is the report of a missing payload as much as of a missing taskType. *)
Lemma C6_same_report_for_both :
  task_route! (Stub.authorized (VObj [])) Stub.s0
  = task_route! (Stub.authorized (VObj [("taskType", VStr "planner")])) Stub.s0 /\
  task_route! (Stub.authorized (VObj [])) Stub.s0
  = (Sent missing_fields, Stub.s0).
Proof. split; reflexivity. Qed.

(** C7 fails as stated: here the payload field is present (it is the number
    0) and the taskType is non-empty, yet the request is rejected with
    'Missing fields'. *)
Lemma C7_present_payload_rejected :
  ownProperty [("taskType", VStr "planner"); ("payload", VNum 0)] "payload"
  = Some (VNum 0) /\
  task_route!
    (Stub.authorized (VObj [("taskType", VStr "planner"); ("payload", VNum 0)]))
    Stub.s0
  = (Sent missing_fields, Stub.s0).
Proof. split; reflexivity. Qed.

(* ------------------------------------------------------------------ *)
(** * The theorems at concrete requests                                *)
(* ------------------------------------------------------------------ *)

Local Notation "'authenticated!'" := (authenticated Stub.verifyToken).

(** C1 on a batch of two: an execution task and a task for no agent. *)
Lemma C1_witness :
  exists results s',
    coordinate_route!
      (Stub.anonymous (Stub.batch [Stub.create_task; Stub.ghost_task])) Stub.s0
    = (Sent (mkResponse 200 (results_body results)), s') /\
    length results = length [Stub.create_task; Stub.ghost_task] /\
    Forall2 (fun t o =>
               getProp o "agent" = getProp t "taskType" /\
               exists s1 s2, coordinate_step! t s1 = (Normal o, s2))
            [Stub.create_task; Stub.ghost_task] results.
Proof.
  apply (C1_batch_outcomes_in_order Stub.W Stub.encodeURIComponent
           Stub.axios_get
           (Stub.anonymous (Stub.batch [Stub.create_task; Stub.ghost_task]))
           [Stub.create_task; Stub.ghost_task] Stub.s0).
  - reflexivity.
  - simpl. eexists _, _. split; [reflexivity|].
    eexists _, _. split; [reflexivity|exact I].
Defined.

(** C2 on a research task whose page the network refuses, and on a batch
    whose second task throws. *)
Lemma C2_witness :
  task_route! (Stub.authorized Stub.lost_page) Stub.s0
  = (Sent invalid_token,
     mkState ["https://en.wikipedia.org/api/rest_v1/page/summary/Nowhere"]
             [(researchAgent,
               bound_task (VStr "u1") (VStr "research")
                          (VObj [("query", VStr "Nowhere")]))]) /\
  coordinate_route!
    (Stub.anonymous
       (Stub.batch ([Stub.create_task]
                    ++ Stub.planner_no_payload :: [Stub.ghost_task])))
    Stub.s0
  = (Unhandled TypeError,
     mkState [] [(executionAgent, Stub.create_task);
                 (plannerAgent, Stub.planner_no_payload)]).
Proof.
  split.
  - apply (proj1 (C2_handler_failure_paths Stub.W Stub.verifyToken
                    Stub.encodeURIComponent Stub.axios_get)
             (Stub.authorized Stub.lost_page) Stub.alice (VStr "research")
             (VObj [("query", VStr "Nowhere")]) researchAgent (VStr "u1")
             Stub.s0 AxiosError).
    + exists "good". split; [reflexivity|]. split; [discriminate|reflexivity].
    + split; reflexivity.
    + reflexivity.
    + reflexivity.
    + reflexivity.
    + reflexivity.
    + reflexivity.
  - apply (proj2 (proj2 (C2_handler_failure_paths Stub.W Stub.verifyToken
                           Stub.encodeURIComponent Stub.axios_get))
             (Stub.anonymous
                (Stub.batch ([Stub.create_task]
                             ++ Stub.planner_no_payload :: [Stub.ghost_task])))
             [Stub.create_task] Stub.planner_no_payload [Stub.ghost_task]
             (VStr "planner") plannerAgent Stub.s0
             [agent_result (VStr "execution")
                (VObj [("status", VStr "created"); ("data", VNum 7)])]
             (mkState [] [(executionAgent, Stub.create_task)])
             TypeError).
    + reflexivity.
    + econstructor; [reflexivity|constructor].
    + reflexivity.
    + reflexivity.
    + reflexivity.
Defined.

(** C3 on a batch of an unknown agent followed by an execution task. *)
Lemma C3_witness :
  exists results s',
    coordinate_route!
      (Stub.anonymous (Stub.batch [Stub.ghost_task; Stub.create_task])) Stub.s0
    = (Sent (mkResponse 200 (results_body results)), s') /\
    Forall2 (fun t o =>
               exists taskType,
                 getProp t "taskType" = Normal taskType /\
                 ((unknown_to_agents taskType /\
                   o = unknown_agent taskType /\
                   forall s1, coordinate_step! t s1 = (Normal o, s1))
                  \/
                  (exists a result s1 s2,
                      agents_index taskType = Normal (Registered a) /\
                      handleTask! a t s1 = (Normal result, s2) /\
                      o = agent_result taskType result)))
            [Stub.ghost_task; Stub.create_task] results.
Proof.
  apply (C3_unknown_agent_isolated Stub.W Stub.encodeURIComponent
           Stub.axios_get
           (Stub.anonymous (Stub.batch [Stub.ghost_task; Stub.create_task]))
           [Stub.ghost_task; Stub.create_task] Stub.s0).
  - reflexivity.
  - simpl. eexists _, _. split; [reflexivity|].
    eexists _, _. split; [reflexivity|exact I].
Defined.

(** C4 on an authenticated task for the agent [ghost]. *)
Lemma C4_witness :
  task_route! (Stub.authorized Stub.ghost_task) Stub.s0
  = (Sent (mkResponse 400 (error_body "Unknown agent")), Stub.s0).
Proof.
  apply (C4_unknown_agent_single Stub.W Stub.verifyToken
           Stub.encodeURIComponent Stub.axios_get
           (Stub.authorized Stub.ghost_task) Stub.alice (VStr "ghost")
           (VObj []) Stub.s0).
  - exists "good". split; [reflexivity|]. split; [discriminate|reflexivity].
  - split; reflexivity.
  - reflexivity.
  - reflexivity.
  - reflexivity.
Defined.

(** C5 on a forged token and on a request without the header. *)
Lemma C5_witness :
  (exists r s',
      task_route! (mkRequest (Some "Bearer forged") Stub.create_task) Stub.s0
      = (Sent r, s') /\ status r = 401 /\ calls s' = calls Stub.s0) /\
  (exists r s',
      task_route! (Stub.anonymous Stub.create_task) Stub.s0
      = (Sent r, s') /\ status r = 401 /\ calls s' = calls Stub.s0).
Proof.
  split.
  - apply (C5_auth_gate Stub.W Stub.verifyToken Stub.encodeURIComponent
             Stub.axios_get (mkRequest (Some "Bearer forged") Stub.create_task)
             Stub.s0).
    right. right. exists "forged", JsonWebTokenError. split; reflexivity.
  - apply (C5_auth_gate Stub.W Stub.verifyToken Stub.encodeURIComponent
             Stub.axios_get (Stub.anonymous Stub.create_task) Stub.s0).
    left. reflexivity.
Defined.

(** C6 on a body that has a payload and no taskType. *)
Lemma C6_witness :
  task_route! (Stub.authorized (VObj [("payload", VObj [])])) Stub.s0
  = (Sent missing_fields, Stub.s0) /\
  forall req' user' taskType' payload',
    authenticated! req' user' ->
    body_fields req' taskType' payload' ->
    truthy taskType' = true -> truthy payload' = false ->
    task_route! req' Stub.s0
    = task_route! (Stub.authorized (VObj [("payload", VObj [])])) Stub.s0.
Proof.
  apply (C6_missing_fields_undifferentiated Stub.W Stub.verifyToken
           Stub.encodeURIComponent Stub.axios_get
           (Stub.authorized (VObj [("payload", VObj [])])) Stub.alice
           VUndefined (VObj []) Stub.s0).
  - exists "good". split; [reflexivity|]. split; [discriminate|reflexivity].
  - split; reflexivity.
  - reflexivity.
Defined.

(** C7 on a planner task whose payload is the empty object. *)
Lemma C7_witness :
  (fst (task_route! (Stub.authorized (Stub.task "planner" (VObj []))) Stub.s0)
   = Sent missing_fields <-> truthy (VObj []) = false) /\
  (VObj [] = VObj [] \/ VObj [] = VArr [] ->
   fst (task_route! (Stub.authorized (Stub.task "planner" (VObj []))) Stub.s0)
   <> Sent missing_fields) /\
  (truthy (VObj []) = true ->
   forall a userId,
     agents_index (VStr "planner") = Normal (Registered a) ->
     getProp Stub.alice "id" = Normal userId ->
     calls (snd (task_route! (Stub.authorized (Stub.task "planner" (VObj [])))
                             Stub.s0))
     = (calls Stub.s0 ++ [(a, bound_task userId (VStr "planner") (VObj []))])%list).
Proof.
  apply (C7_payload_guard Stub.W Stub.verifyToken Stub.encodeURIComponent
           Stub.axios_get (Stub.authorized (Stub.task "planner" (VObj [])))
           Stub.alice (VStr "planner") (VObj []) Stub.s0).
  - exists "good". split; [reflexivity|]. split; [discriminate|reflexivity].
  - split; reflexivity.
  - reflexivity.
Defined.

(** C8 on an execution task, sent alone and in a batch. *)
Lemma C8_witness :
  calls (snd (task_route! (Stub.authorized Stub.create_task) Stub.s0))
  = (calls Stub.s0
     ++ [(executionAgent,
          bound_task (VStr "u1") (VStr "execution")
                     (VObj [("action", VStr "create"); ("data", VNum 7)]))])%list /\
  (exists cs,
      calls (snd (coordinate_route!
                    (Stub.anonymous (Stub.batch [Stub.create_task])) Stub.s0))
      = (calls Stub.s0 ++ cs)%list /\
      Forall (fun k : call => In (snd k) [Stub.create_task]) cs) /\
  calls (snd (coordinate_step! Stub.create_task Stub.s0))
  = (calls Stub.s0 ++ [(executionAgent, Stub.create_task)])%list.
Proof.
  pose proof (C8_identity_binding Stub.W Stub.verifyToken
                Stub.encodeURIComponent Stub.axios_get) as (H1 & H2 & H3).
  split; [|split].
  - apply (H1 (Stub.authorized Stub.create_task) Stub.alice (VStr "execution")
              (VObj [("action", VStr "create"); ("data", VNum 7)])
              executionAgent (VStr "u1") Stub.s0).
    + exists "good". split; [reflexivity|]. split; [discriminate|reflexivity].
    + split; reflexivity.
    + reflexivity.
    + reflexivity.
    + reflexivity.
    + reflexivity.
  - apply (H2 (Stub.anonymous (Stub.batch [Stub.create_task]))
              [Stub.create_task] Stub.s0).
    reflexivity.
  - apply (H3 Stub.create_task (VStr "execution") executionAgent Stub.s0);
      reflexivity.
Defined.

(** C9 on the name [constructor]. *)
Lemma C9_witness :
  ownAgent agents "constructor" = None /\
  coordinate_step! (Stub.task "constructor" (VObj [])) Stub.s0
  = (Throw TypeError, Stub.s0) /\
  coordinate_route!
    (Stub.anonymous (Stub.batch [Stub.task "constructor" (VObj [])])) Stub.s0
  = (Unhandled TypeError, Stub.s0).
Proof.
  apply (C9_inherited_name_escapes_guard Stub.W Stub.encodeURIComponent
           Stub.axios_get None "constructor" (VObj []) Stub.s0).
  simpl. left. reflexivity.
Defined.

(** C10 on the actions [create] and [archive]. *)
Lemma C10_witness :
  handleTask! executionAgent Stub.create_task Stub.s0
  = (Normal (VObj [("status", VStr "created"); ("data", VNum 7)]),
     journalled Stub.W executionAgent Stub.create_task Stub.s0) /\
  task_route! (Stub.authorized Stub.archive_task) Stub.s0
  = (Sent (mkResponse 200
             (VObj [("agent", VStr "execution");
                    ("result", error_body "Unknown action")])),
     journalled Stub.W executionAgent
       (bound_task (VStr "u1") (VStr "execution")
                   (VObj [("action", VStr "archive"); ("data", VNum 7)]))
       Stub.s0).
Proof.
  pose proof (C10_execution_agent Stub.W Stub.verifyToken
                Stub.encodeURIComponent Stub.axios_get) as (H1 & H2).
  split.
  - apply (H1 Stub.create_task
              (VObj [("action", VStr "create"); ("data", VNum 7)])
              (VStr "create") (VNum 7) Stub.s0); reflexivity.
  - apply (H2 (Stub.authorized Stub.archive_task) Stub.alice (VStr "execution")
              (VObj [("action", VStr "archive"); ("data", VNum 7)])
              (VStr "archive") (VStr "u1") Stub.s0);
      try reflexivity; try discriminate.
    + exists "good". split; [reflexivity|]. split; [discriminate|reflexivity].
    + split; reflexivity.
Defined.

(* ------------------------------------------------------------------ *)
(** * The further properties at concrete requests                      *)
(* ------------------------------------------------------------------ *)

Local Notation "'register_route!'" :=
  (register_route StubDb.W StubDb.User_findOne StubDb.User_new
     StubDb.User_save StubDb.bcrypt_hash StubDb.signToken).
Local Notation "'login_route!'" :=
  (login_route StubDb.W StubDb.User_findOne StubDb.bcrypt_compare
     StubDb.signToken).

(** The scheme [Token] in place of [Bearer]. *)
Lemma scheme_word_unchecked_witness :
  task_route! (mkRequest (Some ("Token" ++ " " ++ "good")) Stub.create_task)
              Stub.s0
  = task_route! (mkRequest (Some ("Bearer " ++ "good")) Stub.create_task)
                Stub.s0 /\
  (spaceless "good" = true ->
   bearer_token (mkRequest (Some ("Token" ++ " " ++ "good")) Stub.create_task)
   = Some "good").
Proof.
  apply (scheme_word_unchecked Stub.W Stub.verifyToken Stub.encodeURIComponent
           Stub.axios_get "Token" "good" Stub.create_task Stub.s0).
  reflexivity.
Defined.

(** The bare token as the whole header. *)
Lemma one_word_header_rejected_witness :
  task_route! (mkRequest (Some "good") Stub.create_task) Stub.s0
  = (Sent (mkResponse 401 (error_body "No token")), Stub.s0).
Proof.
  apply (one_word_header_rejected Stub.W Stub.verifyToken
           Stub.encodeURIComponent Stub.axios_get "good" Stub.create_task
           Stub.s0).
  reflexivity.
Defined.

(** The planner on a task without payload: it throws, the world stays. *)
Lemma local_agents_leave_world_witness :
  snd (handleTask! plannerAgent Stub.planner_no_payload Stub.s0)
  = journalled Stub.W plannerAgent Stub.planner_no_payload Stub.s0.
Proof.
  apply (local_agents_leave_world Stub.W Stub.encodeURIComponent Stub.axios_get
           plannerAgent Stub.planner_no_payload Stub.s0 (Throw TypeError)
           (snd (handleTask! plannerAgent Stub.planner_no_payload Stub.s0))).
  - discriminate.
  - reflexivity.
Defined.

(** An execution task with an action the agent does not know. *)
Lemma execution_always_answers_witness :
  exists result,
    task_route! (Stub.authorized Stub.archive_task) Stub.s0
    = (Sent (mkResponse 200 (agent_result (VStr "execution") result)),
       journalled Stub.W executionAgent
         (bound_task (VStr "u1") (VStr "execution")
            (VObj [("action", VStr "archive"); ("data", VNum 7)]))
         Stub.s0).
Proof.
  apply (execution_always_answers Stub.W Stub.verifyToken
           Stub.encodeURIComponent Stub.axios_get
           (Stub.authorized Stub.archive_task) Stub.alice (VStr "execution")
           (VObj [("action", VStr "archive"); ("data", VNum 7)]) (VStr "u1")
           Stub.s0); try reflexivity.
  - exists "good". split; [reflexivity|]. split; [discriminate|reflexivity].
  - split; reflexivity.
Defined.

(** An execution task on the single route and the same element in a
    batch turn. *)
Lemma dispatch_only_registered_witness :
  (exists taskType payload userId k,
      body_fields (Stub.authorized Stub.create_task) taskType payload /\
      toString taskType = Normal k /\
      In (k, executionAgent) agents /\
      bound_task (VStr "u1") (VStr "execution")
                 (VObj [("action", VStr "create"); ("data", VNum 7)])
      = bound_task userId taskType payload) /\
  (exists taskType k,
      getProp Stub.create_task "taskType" = Normal taskType /\
      toString taskType = Normal k /\
      In (k, executionAgent) agents /\
      Stub.create_task = Stub.create_task).
Proof.
  pose proof (dispatch_only_registered Stub.W Stub.verifyToken
                Stub.encodeURIComponent Stub.axios_get) as [H1 H2].
  split.
  - apply (H1 (Stub.authorized Stub.create_task) Stub.s0
              (fst (task_route! (Stub.authorized Stub.create_task) Stub.s0))
              (snd (task_route! (Stub.authorized Stub.create_task) Stub.s0))
              executionAgent
              (bound_task (VStr "u1") (VStr "execution")
                 (VObj [("action", VStr "create"); ("data", VNum 7)])));
      reflexivity.
  - apply (H2 Stub.create_task Stub.s0
              (fst (coordinate_step! Stub.create_task Stub.s0))
              (snd (coordinate_step! Stub.create_task Stub.s0))
              executionAgent Stub.create_task); reflexivity.
Defined.

(** A body without the [tasks] field. *)
Lemma tasks_must_be_array_witness :
  coordinate_route! (Stub.anonymous (VObj [])) Stub.s0
  = (Sent (mkResponse 400 (error_body "Tasks must be array")), Stub.s0).
Proof.
  apply (tasks_must_be_array Stub.W Stub.encodeURIComponent Stub.axios_get
           (Stub.anonymous (VObj [])) VUndefined Stub.s0).
  - reflexivity.
  - intros l. discriminate.
Defined.

(** A task for [ghost] and a task without taskType. *)
Lemma unknown_batch_closed_form_witness :
  coordinate_route! (Stub.anonymous (Stub.batch [Stub.ghost_task; VObj []]))
                    Stub.s0
  = (Sent (mkResponse 200
             (results_body (map unknown_agent [VStr "ghost"; VUndefined]))),
     Stub.s0).
Proof.
  apply (unknown_batch_closed_form Stub.W Stub.encodeURIComponent
           Stub.axios_get
           (Stub.anonymous (Stub.batch [Stub.ghost_task; VObj []]))
           [Stub.ghost_task; VObj []] [VStr "ghost"; VUndefined] Stub.s0).
  - reflexivity.
  - repeat constructor.
Defined.

(** An execution task followed by a planner task that throws. *)
Lemma offline_batch_leaves_world_witness :
  world (snd (coordinate_route!
                (Stub.anonymous
                   (Stub.batch [Stub.create_task; Stub.planner_no_payload]))
                Stub.s0))
  = world Stub.s0.
Proof.
  apply (offline_batch_leaves_world Stub.W Stub.encodeURIComponent
           Stub.axios_get
           (Stub.anonymous
              (Stub.batch [Stub.create_task; Stub.planner_no_payload]))
           [Stub.create_task; Stub.planner_no_payload] Stub.s0).
  - reflexivity.
  - repeat constructor; intros taskType H; inversion H; discriminate.
Defined.

(** Two execution tasks around a task for [ghost]. *)
Lemma harmless_batch_completes_witness :
  exists results s',
    coordinate_route!
      (Stub.anonymous
         (Stub.batch [Stub.create_task; Stub.ghost_task; Stub.archive_task]))
      Stub.s0
    = (Sent (mkResponse 200 (results_body results)), s') /\
    length results
    = length [Stub.create_task; Stub.ghost_task; Stub.archive_task] /\
    world s' = world Stub.s0.
Proof.
  apply (harmless_batch_completes Stub.W Stub.encodeURIComponent Stub.axios_get
           (Stub.anonymous
              (Stub.batch [Stub.create_task; Stub.ghost_task; Stub.archive_task]))
           [Stub.create_task; Stub.ghost_task; Stub.archive_task] Stub.s0).
  - reflexivity.
  - repeat constructor.
    + exists (VStr "execution"). split; [reflexivity|]. right.
      split; [reflexivity|]. eexists _, _. split; reflexivity.
    + exists (VStr "ghost"). split; [reflexivity|]. left. reflexivity.
    + exists (VStr "execution"). split; [reflexivity|]. right.
      split; [reflexivity|]. eexists _, _. split; reflexivity.
Defined.

(** A [null] element after an execution task and before a task for
    [ghost]. *)
Lemma batch_stops_at_first_throw_witness :
  coordinate_route!
    (Stub.anonymous (Stub.batch ([Stub.create_task] ++ VNull :: [Stub.ghost_task])))
    Stub.s0
  = (Unhandled TypeError, journalled Stub.W executionAgent Stub.create_task Stub.s0)
  /\
  exists cs,
    calls (journalled Stub.W executionAgent Stub.create_task Stub.s0)
    = (calls Stub.s0 ++ cs)%list /\
    Forall (fun k : call => In (snd k) ([Stub.create_task] ++ [VNull])) cs.
Proof.
  apply (batch_stops_at_first_throw Stub.W Stub.encodeURIComponent
           Stub.axios_get
           (Stub.anonymous
              (Stub.batch ([Stub.create_task] ++ VNull :: [Stub.ghost_task])))
           [Stub.create_task] VNull [Stub.ghost_task] Stub.s0
           [agent_result (VStr "execution")
              (VObj [("status", VStr "created"); ("data", VNum 7)])]
           (journalled Stub.W executionAgent Stub.create_task Stub.s0)
           TypeError
           (journalled Stub.W executionAgent Stub.create_task Stub.s0)).
  - reflexivity.
  - econstructor; [reflexivity|constructor].
  - reflexivity.
Defined.

(** The research task of the sample, sent alone in a batch without any
    header. *)
Lemma batch_needs_no_token_witness :
  exists s'',
    coordinate_route!
      (mkRequest None
         (VObj [("tasks",
                 VArr [body (Stub.authorized
                               (Stub.task "research"
                                  (VObj [("query", VStr "Rocq")])))])]))
      Stub.s0
    = (Sent (mkResponse 200
               (results_body
                  [agent_result (VStr "research")
                     (VObj [("summary", VStr "Rocq is a proof assistant.")])])),
       s'')
    /\ world s''
       = world (mkState
                  ["https://en.wikipedia.org/api/rest_v1/page/summary/Rocq"]
                  [(researchAgent,
                    bound_task (VStr "u1") (VStr "research")
                               (VObj [("query", VStr "Rocq")]))]).
Proof.
  apply (batch_needs_no_token Stub.W Stub.verifyToken Stub.encodeURIComponent
           Stub.axios_get
           (Stub.authorized (Stub.task "research" (VObj [("query", VStr "Rocq")])))
           Stub.alice (VStr "research") (VObj [("query", VStr "Rocq")])
           researchAgent (VStr "u1")
           (VObj [("summary", VStr "Rocq is a proof assistant.")])
           Stub.s0
           (mkState
              ["https://en.wikipedia.org/api/rest_v1/page/summary/Rocq"]
              [(researchAgent,
                bound_task (VStr "u1") (VStr "research")
                           (VObj [("query", VStr "Rocq")]))])
           None); try reflexivity.
  - exists "good". split; [reflexivity|]. split; [discriminate|reflexivity].
  - split; reflexivity.
Defined.

(** A planner task and a research task with an empty payload. *)
Lemma missing_field_reads_undefined_witness :
  handleTask! plannerAgent (Stub.task "planner" (VObj [])) Stub.s0
  = (Normal (VObj [("steps",
                    VArr [VStr "Define the goal: undefined";
                          VStr "Research requirements";
                          VStr "List resources";
                          VStr "Create timeline";
                          VStr "Assign tasks"])]),
     journalled Stub.W plannerAgent (Stub.task "planner" (VObj [])) Stub.s0).
Proof.
  apply (proj1 (missing_field_reads_undefined Stub.W Stub.encodeURIComponent
                  Stub.axios_get (Stub.task "planner" (VObj [])) [] Stub.s0
                  eq_refl)).
  reflexivity.
Defined.

(** Registration with an empty password. *)
Lemma register_missing_fields_witness :
  register_route! (StubDb.credentials "bob" "") StubDb.s1
  = (Sent missing_fields, StubDb.s1).
Proof.
  apply (register_missing_fields StubDb.W StubDb.User_findOne StubDb.User_new
           StubDb.User_save StubDb.bcrypt_hash StubDb.signToken
           (StubDb.credentials "bob" "") (VStr "bob") (VStr "") StubDb.s1).
  - reflexivity.
  - reflexivity.
  - right. reflexivity.
Defined.

(** Registration under the name the store already holds. *)
Lemma register_existing_user_witness :
  register_route! (StubDb.credentials "ann" "other") StubDb.s1
  = (Sent (mkResponse 400 (error_body "User exists")),
     mkState [StubDb.ann] (calls StubDb.s1)).
Proof.
  apply (register_existing_user StubDb.W StubDb.User_findOne StubDb.User_new
           StubDb.User_save StubDb.bcrypt_hash StubDb.signToken
           (StubDb.credentials "ann" "other") (VStr "ann") (VStr "other")
           StubDb.ann [StubDb.ann] StubDb.s1); reflexivity.
Defined.

(** Registration of a new user [bob] beside [ann]. *)
Lemma register_success_chain_witness :
  exists username password existing hash user id token w1 w2 w3 w4,
    getProp (body (StubDb.credentials "bob" "pw")) "username" = Normal username /\
    getProp (body (StubDb.credentials "bob" "pw")) "password" = Normal password /\
    StubDb.User_findOne (VObj [("username", username)]) (world StubDb.s1)
      = (Normal existing, w1) /\
    truthy existing = false /\
    StubDb.bcrypt_hash password 10 w1 = (Normal hash, w2) /\
    StubDb.User_new (VObj [("username", username); ("password", hash)]) w2
      = (Normal user, w3) /\
    StubDb.User_save user w3 = (Normal tt, w4) /\
    getProp user "_id" = Normal id /\
    StubDb.signToken (VObj [("id", id); ("username", username)]) w4
      = (Normal token,
         world (mkState
                  [StubDb.ann;
                   VObj [("_id", VNum 1); ("username", VStr "bob");
                         ("password", VStr "$pw")]] [])) /\
    json (mkResponse 200 (token_body (VStr "jwt.bob"))) = token_body token /\
    calls (mkState
             [StubDb.ann;
              VObj [("_id", VNum 1); ("username", VStr "bob");
                    ("password", VStr "$pw")]] [])
    = calls StubDb.s1.
Proof.
  apply (register_success_chain StubDb.W StubDb.User_findOne StubDb.User_new
           StubDb.User_save StubDb.bcrypt_hash StubDb.signToken
           (StubDb.credentials "bob" "pw") StubDb.s1
           (mkResponse 200 (token_body (VStr "jwt.bob")))
           (mkState
              [StubDb.ann;
               VObj [("_id", VNum 1); ("username", VStr "bob");
                     ("password", VStr "$pw")]] [])).
  - reflexivity.
  - reflexivity.
Defined.

(** An unknown name and a wrong password for [ann]. *)
Lemma login_failures_alike_witness :
  fst (login_route! (StubDb.credentials "zed" "pw") StubDb.s1)
  = Sent (mkResponse 400 (error_body "Invalid credentials")) /\
  fst (login_route! (StubDb.credentials "ann" "guess") StubDb.s1)
  = fst (login_route! (StubDb.credentials "zed" "pw") StubDb.s1).
Proof.
  apply (login_failures_alike StubDb.W StubDb.User_findOne
           StubDb.bcrypt_compare StubDb.signToken
           (StubDb.credentials "zed" "pw") (StubDb.credentials "ann" "guess")
           StubDb.s1 StubDb.s1 (VStr "zed") (VStr "ann") (VStr "guess")
           VNull StubDb.ann (VStr "$pw") [StubDb.ann] [StubDb.ann]);
    reflexivity.
Defined.

(** [ann] logging in with her password. *)
Lemma login_token_needs_match_witness :
  exists username password user stored id token w,
    getProp (body (StubDb.credentials "ann" "pw")) "username" = Normal username /\
    getProp (body (StubDb.credentials "ann" "pw")) "password" = Normal password /\
    StubDb.User_findOne (VObj [("username", username)]) (world StubDb.s1)
      = (Normal user, w) /\
    truthy user = true /\
    getProp user "password" = Normal stored /\
    StubDb.bcrypt_compare password stored = Normal true /\
    getProp user "_id" = Normal id /\
    StubDb.signToken (VObj [("id", id); ("username", username)]) w
      = (Normal token, world StubDb.s1) /\
    json (mkResponse 200 (token_body (VStr "jwt.ann"))) = token_body token.
Proof.
  apply (login_token_needs_match StubDb.W StubDb.User_findOne
           StubDb.bcrypt_compare StubDb.signToken
           (StubDb.credentials "ann" "pw") StubDb.s1
           (mkResponse 200 (token_body (VStr "jwt.ann"))) StubDb.s1).
  - reflexivity.
  - reflexivity.
Defined.

(** A login while the store is down. *)
Lemma auth_routes_uncaught_witness :
  login_route StubDb.W StubDown.User_findOne StubDb.bcrypt_compare
    StubDb.signToken (StubDb.credentials "ann" "pw") StubDb.s1
  = (Unhandled AxiosError, mkState [StubDb.ann] (calls StubDb.s1)).
Proof.
  apply (proj1 (auth_routes_uncaught StubDb.W StubDown.User_findOne
                  StubDb.User_new StubDb.User_save StubDb.bcrypt_hash
                  StubDb.bcrypt_compare StubDb.signToken
                  (StubDb.credentials "ann" "pw") (VStr "ann") AxiosError
                  [StubDb.ann] StubDb.s1 eq_refl eq_refl)).
Defined.

(** The token [good] through the dashboard. *)
Lemma dashboard_token_round_trip_witness :
  bearer_token (Stub.authorized
                  (VObj [("taskType", VStr "planner");
                         ("payload", AgentDashboard_payload "planner" "ship")]))
  = Some "good".
Proof.
  apply (proj1 (dashboard_token_round_trip "good" "planner" "ship"
                  (Stub.authorized
                     (VObj [("taskType", VStr "planner");
                            ("payload", AgentDashboard_payload "planner" "ship")]))
                  eq_refl)).
  reflexivity.
Defined.

(** The research entry of the menu. *)
Lemma dashboard_request_well_formed_witness :
  exists r s',
    task_route! (Stub.authorized
                   (VObj [("taskType", VStr "research");
                          ("payload", AgentDashboard_payload "research" "Rocq")]))
                Stub.s0
    = (Sent r, s') /\ status r <> 400.
Proof.
  apply (dashboard_request_well_formed Stub.W Stub.verifyToken
           Stub.encodeURIComponent Stub.axios_get "good" "research" "Rocq"
           (Stub.authorized
              (VObj [("taskType", VStr "research");
                     ("payload", AgentDashboard_payload "research" "Rocq")]))
           Stub.alice Stub.s0).
  - reflexivity.
  - reflexivity.
  - reflexivity.
  - simpl. left. reflexivity.
Defined.

(** The execution entry with the input [order 7]. *)
Lemma dashboard_shows_created_witness :
  exists r s',
    task_route! (Stub.authorized
                   (VObj [("taskType", VStr "execution");
                          ("payload",
                           AgentDashboard_payload "execution" "order 7")]))
                Stub.s0
    = (Sent r, s') /\
    AgentDashboard_receive r
    = mkView (VObj [("status", VStr "created"); ("data", VStr "order 7")])
             (VStr "") /\
    world s' = world Stub.s0.
Proof.
  apply (dashboard_shows_created Stub.W Stub.verifyToken
           Stub.encodeURIComponent Stub.axios_get "good" "order 7"
           (Stub.authorized
              (VObj [("taskType", VStr "execution");
                     ("payload", AgentDashboard_payload "execution" "order 7")]))
           Stub.alice (VStr "u1") Stub.s0); reflexivity.
Defined.

(** The planner entry with the input [ship]. *)
Lemma dashboard_shows_steps_witness :
  exists r s',
    task_route! (Stub.authorized
                   (VObj [("taskType", VStr "planner");
                          ("payload", AgentDashboard_payload "planner" "ship")]))
                Stub.s0
    = (Sent r, s') /\
    AgentDashboard_receive r
    = mkView (VObj [("steps",
                     VArr [VStr ("Define the goal: " ++ "ship");
                           VStr "Research requirements";
                           VStr "List resources";
                           VStr "Create timeline";
                           VStr "Assign tasks"])])
             (VStr "").
Proof.
  apply (dashboard_shows_steps Stub.W Stub.verifyToken
           Stub.encodeURIComponent Stub.axios_get "good" "ship"
           (Stub.authorized
              (VObj [("taskType", VStr "planner");
                     ("payload", AgentDashboard_payload "planner" "ship")]))
           Stub.alice (VStr "u1") Stub.s0); reflexivity.
Defined.

(** A good token and a page the network refuses. *)
Lemma dashboard_blames_token_witness :
  exists r s',
    task_route! (Stub.authorized
                   (VObj [("taskType", VStr "research");
                          ("payload",
                           AgentDashboard_payload "research" "Nowhere")]))
                Stub.s0
    = (Sent r, s') /\
    AgentDashboard_receive r = mkView VNull (VStr "Invalid token").
Proof.
  apply (dashboard_blames_token Stub.W Stub.verifyToken
           Stub.encodeURIComponent Stub.axios_get "good" "Nowhere"
           (Stub.authorized
              (VObj [("taskType", VStr "research");
                     ("payload", AgentDashboard_payload "research" "Nowhere")]))
           Stub.s0).
  - reflexivity.
  - reflexivity.
  - right. exists Stub.alice, (VStr "u1"), "Nowhere", AxiosError,
      ["https://en.wikipedia.org/api/rest_v1/page/summary/Nowhere"].
    repeat split.
Defined.

(** A page that comes back without its extract. *)
Lemma dashboard_shows_empty_summary_witness :
  exists r s',
    task_route Stub.W Stub.verifyToken Stub.encodeURIComponent
      StubBare.axios_get
      (Stub.authorized
         (VObj [("taskType", VStr "research");
                ("payload", AgentDashboard_payload "research" "Rocq")]))
      Stub.s0
    = (Sent r, s') /\
    status r = 200 /\
    AgentDashboard_receive r = mkView (VObj []) (VStr "").
Proof.
  apply (dashboard_shows_empty_summary Stub.W Stub.verifyToken
           Stub.encodeURIComponent StubBare.axios_get "good" "Rocq"
           (Stub.authorized
              (VObj [("taskType", VStr "research");
                     ("payload", AgentDashboard_payload "research" "Rocq")]))
           Stub.alice (VStr "u1") "Rocq"
           (VObj [("title", VStr "Untitled")])
           ["https://en.wikipedia.org/api/rest_v1/page/summary/Rocq"]
           Stub.s0); reflexivity.
Defined.

(** [ann] typing a wrong password into the form, an old token in the
    browser. *)
Lemma login_form_outcomes_witness :
  (status (mkResponse 400 (error_body "Invalid credentials")) = 200 /\
   exists token,
     json (mkResponse 400 (error_body "Invalid credentials")) = token_body token /\
     forall t, token = VStr t ->
               LoginForm_receive (Some "old")
                 (mkResponse 400 (error_body "Invalid credentials"))
               = mkLoginView (Some t) (VStr "") true)
  \/
  (status (mkResponse 400 (error_body "Invalid credentials")) = 400 /\
   LoginForm_receive (Some "old")
     (mkResponse 400 (error_body "Invalid credentials"))
   = mkLoginView (Some "old") (VStr "Invalid credentials") false).
Proof.
  apply (login_form_outcomes StubDb.W StubDb.User_findOne
           StubDb.bcrypt_compare StubDb.signToken "ann" "guess" (Some "old")
           StubDb.s1 (mkResponse 400 (error_body "Invalid credentials"))
           StubDb.s1).
  reflexivity.
Defined.
